(** * GrantForgeUSA front end: request orchestration and UI state

    A shallow embedding of the client of [src/]:
    - [config.js] and [fetcher.js] (the minimal client's API helpers),
    - the minimal [App.jsx] ([handleFind]),
    - the full [App.jsx] ([api], [findGrants], [createDraft], [exportPDF],
      [openPay], [confirmPay]).

    Conventions of the model.
    - A JavaScript string is a [string]; one [ascii] stands for one UTF-16 code
      unit below 256.
    - A property that holds a string, or is absent ([undefined]) or [null], is
      an [option string]; [a || b] picks [a] exactly when it is a non-empty
      string.
    - A parsed response body is viewed through the fields the client reads
      ([RespFields]); the body [null], on which a property read throws, is kept
      apart ([JNull]).
    - An event handler is an async function closed over the state of the
      render that created it: it READS that snapshot and WRITES the live state
      through the setters.  Handlers therefore take the snapshot as an
      argument and run in a state-and-exception monad over the live state. *)

From Stdlib Require Import Ascii String.
From stdpp Require Import base gmap strings list pretty.

Open Scope string_scope.

(** ** JavaScript values of the data model *)

Module Js.

(** Truthiness of a string: only the empty string is falsy. *)
Definition truthy_str (s : string) : bool := negb (String.eqb s "").

(** Truthiness of an optional string property. *)
Definition truthy (x : option string) : bool :=
  match x with
  | Some s => truthy_str s
  | None => false
  end.

(** [s || d] for a string [s] and a string literal [d]. *)
Definition str_or (s d : string) : string :=
  if truthy_str s then s else d.

(** [x || y] for two optional properties. *)
Definition or_else (x y : option string) : option string :=
  if truthy x then x else y.

(** [x || d] for an optional property [x] and a string literal [d]. *)
Definition or_lit (x : option string) (d : string) : string :=
  match x with
  | Some s => str_or s d
  | None => d
  end.

(** [a || b] where both are arrays or absent, ending in [|| []]: an array,
    even an empty one, is truthy. *)
Definition arr_or {A} (x y : option (list A)) : list A :=
  match x with
  | Some l => l
  | None => match y with Some l => l | None => [] end
  end.

(** [s.slice(0, n)]. *)
Fixpoint slice0 (n : nat) (s : string) : string :=
  match n, s with
  | S n', String c r => String c (slice0 n' r)
  | _, _ => ""
  end.

(** The characters matched by [\s] among the code units below 256:
    TAB, LF, VT, FF, CR, SPACE and NO-BREAK SPACE. *)
Definition is_space (c : ascii) : bool :=
  let n := nat_of_ascii c in
  ((9 <=? n)%nat && (n <=? 13)%nat) || (n =? 32)%nat || (n =? 160)%nat.

(** [s.replace(/\s+/g, "_")]: every maximal run of white space becomes one
    underscore.  [in_run] tells that the previous character was white
    space. *)
Fixpoint replace_ws_from (in_run : bool) (s : string) : string :=
  match s with
  | "" => ""
  | String c r =>
      if is_space c
      then (if in_run then replace_ws_from true r
            else String "_" (replace_ws_from true r))
      else String c (replace_ws_from false r)
  end.

Definition replace_ws (s : string) : string := replace_ws_from false s.

(** [x] occurs verbatim in [s]. *)
Definition occurs_in (x s : string) : Prop :=
  exists pre post : string, s = pre +:+ x +:+ post.

End Js.

Import Js.

(** ** Data model *)

(** A grant as the client reads it.  [score], a float that only the render
    formats, is not part of the model. *)
Record Grant := mkGrant {
  g_id : option string;
  g_title : option string;
  g_agency : option string;
  g_url : option string;
  g_deadline : option string;
  g_amount : option string;
  g_fit : option string
}.

(** The active draft: [{ id, preview, grant }]. *)
Record Draft := mkDraft {
  d_id : option string;
  d_preview : string;
  d_grant : Grant
}.

(** The payment-modal target: [{ id, title }]. *)
Record PayFor := mkPayFor {
  pf_id : string;
  pf_title : string
}.

(** ** Errors *)

(** The values a handler can catch, by where they are thrown; each is an
    [Error] object and carries its [message].
    - [NetworkError]: the rejection of [fetch] itself;
    - [RequestFailed]: the [new Error(...)] built after the status check;
    - [DecodeError]: the rejection of [res.json()];
    - [TypeError]: a property read on [null]. *)
Inductive JsError :=
| NetworkError (msg : string)
| RequestFailed (msg : string)
| DecodeError (msg : string)
| TypeError (msg : string).

Definition message (e : JsError) : string :=
  match e with
  | NetworkError m | RequestFailed m | DecodeError m | TypeError m => m
  end.

(** ** The wire *)

(** The grant object of a draft request: [{ id, title, agency, url }]. *)
Record GrantRef := mkGrantRef {
  gr_id : option string;
  gr_title : option string;
  gr_agency : option string;
  gr_url : string
}.

(** The objects handed to [JSON.stringify]. *)
Inductive Body :=
| EmptyObject
| QuestionnaireBody (name keywords : string)
| FindGrantsBody (keywords : string)
| DraftBody (intake_id : option string) (organization : string) (grant : GrantRef)
| ShortlistBody (organization keywords : string).

Record Request := mkRequest {
  req_url : string;
  req_method : string;
  req_content_type : string;
  req_body : Body
}.

(** The fields of a parsed response object that the client reads. *)
Record RespFields := mkResp {
  r_id : option string;
  r_intake_id : option string;
  r_top : option (list Grant);
  r_items : option (list Grant);
  r_results : option (list Grant);
  r_draft_id : option string;
  r_preview : option string
}.

(** What [res.json()] yields. *)
Inductive Json :=
| JNull
| JObject (o : RespFields).

(** A response body: text that is not JSON, or a JSON value. *)
Inductive RespBody :=
| NotJson (msg : string)
| IsJson (v : Json).

(** What [fetch] does with a request: it rejects, or it resolves to a
    response with a status code and a body. *)
Inductive FetchResult :=
| Rejects (msg : string)
| Resolves (status : nat) (body : RespBody).

(** [res.ok]: the status is in the range 200-299. *)
Definition ok (status : nat) : bool := (200 <=? status)%nat && (status <=? 299)%nat.

(** The environment of one handler run: the build-time variable
    [VITE_API_BASE] and the behaviour of the network. *)
Record Env := mkEnv {
  VITE_API_BASE : option string;
  fetch : Request -> FetchResult
}.

(** ** The handler monad *)

Inductive Outcome (A : Type) :=
| Returned (a : A)
| Thrown (e : JsError).
Arguments Returned {A} a.
Arguments Thrown {A} e.

(** The live world of a handler run: the component state, the requests sent
    so far (oldest first) and the errors written to the console. *)
Record World (St : Type) := mkWorld {
  app : St;
  calls : list Request;
  console : list JsError
}.
Arguments mkWorld {St} app calls console.
Arguments app {St} w.
Arguments calls {St} w.
Arguments console {St} w.

Definition M (St A : Type) : Type := Env -> World St -> Outcome A * World St.

Definition ret {St A} (a : A) : M St A := fun _ w => (Returned a, w).

Definition throw {St A} (e : JsError) : M St A := fun _ w => (Thrown e, w).

Definition bind {St A B} (m : M St A) (k : A -> M St B) : M St B :=
  fun env w =>
    match m env w with
    | (Returned a, w') => k a env w'
    | (Thrown e, w') => (Thrown e, w')
    end.

#[global] Instance M_ret St : MRet (M St) := fun A => @ret St A.
#[global] Instance M_bind St : MBind (M St) := fun A B k m => @bind St A B m k.

(** A state setter [setX(v)], given as the update it applies. *)
Definition set {St} (upd : St -> St) : M St unit :=
  fun _ w => (Returned tt, mkWorld (upd (app w)) (calls w) (console w)).

(** [console.error(e)]. *)
Definition console_error {St} (e : JsError) : M St unit :=
  fun _ w => (Returned tt, mkWorld (app w) (calls w) (console w ++ [e])).

(** [await fetch(url, init)]: the request goes out; a rejection is thrown. *)
Definition do_fetch {St} (r : Request) : M St (nat * RespBody) :=
  fun env w =>
    let w' := mkWorld (app w) (calls w ++ [r]) (console w) in
    match fetch env r with
    | Rejects msg => (Thrown (NetworkError msg), w')
    | Resolves status body => (Returned (status, body), w')
    end.

(** [await res.json()]. *)
Definition res_json {St} (body : RespBody) : M St Json :=
  match body with
  | NotJson msg => throw (DecodeError msg)
  | IsJson v => ret v
  end.

(** A property read [v.f]: it throws on [null]. *)
Definition prop {St A} (v : Json) (f : RespFields -> A) : M St A :=
  match v with
  | JNull => throw (TypeError "Cannot read properties of null")
  | JObject o => ret (f o)
  end.

(** [try { body } catch (e) { handler } finally { fin }]. *)
Definition try_catch_finally {St A}
    (body : M St A) (handler : JsError -> M St A) (fin : M St unit) : M St A :=
  fun env w =>
    let '(r1, w1) := body env w in
    let '(r2, w2) :=
      match r1 with
      | Returned a => (Returned a, w1)
      | Thrown e => handler e env w1
      end in
    match fin env w2 with
    | (Returned _, w3) => (r2, w3)
    | (Thrown e, w3) => (Thrown e, w3)
    end.

(** [try { body } catch (e) { handler }]. *)
Definition try_catch {St A} (body : M St A) (handler : JsError -> M St A) : M St A :=
  try_catch_finally body handler (ret tt).

(** ** config.js *)

Module Config.

Definition default_base : string := "https://grantforgeusa-v11-backend.onrender.com".

Definition API_BASE (env : Env) : string := or_lit (VITE_API_BASE env) default_base.

Definition shortlist (env : Env) : string := API_BASE env +:+ "/questionnaire".
Definition draft (env : Env) : string := API_BASE env +:+ "/draft".
Definition health (env : Env) : string := API_BASE env +:+ "/get/health".
Definition checkout (env : Env) : string := API_BASE env +:+ "/create-checkout-session".

End Config.

(** ** fetcher.js: the minimal client's API helper *)

Module Fetcher.

Definition request (env : Env) (org keywords : string) : Request :=
  mkRequest (Config.shortlist env) "POST" "application/json"
            (ShortlistBody org keywords).

Definition findGrants {St} (org keywords : string) : M St Json :=
  fun env =>
    ('(status, body) ← do_fetch (request env org keywords);
     if ok status then res_json body
     else throw (RequestFailed ("Shortlist " +:+ pretty status))) env.

End Fetcher.

(** ** App.jsx, minimal version *)

Module MiniApp.

Record State := mkState {
  org : string;
  kw : string;
  status : string;
  results : list Grant
}.

Definition setStatus (v : string) : M State unit :=
  set (fun s => mkState (org s) (kw s) v (results s)).
Definition setResults (v : list Grant) : M State unit :=
  set (fun s => mkState (org s) (kw s) (status s) v).

(** The status line of a successful search:
    [`Found ${data.results?.length || 0} item(s)`]. *)
Definition found_message (r : option (list Grant)) : string :=
  "Found " +:+ pretty (match r with Some l => length l | None => 0%nat end) +:+ " item(s)".

(** The transient status lines end in an ellipsis, kept as its UTF-8 bytes;
    every completed run overwrites them. *)
Definition handleFind (s : State) : M State unit :=
  setStatus "Finding grants…";;
  setResults [];;
  try_catch
    (data ← Fetcher.findGrants (str_or (org s) "Your Organization")
                               (str_or (kw s) "community");
     r ← prop data r_results;
     setResults (arr_or r None);;
     setStatus (found_message r))
    (fun e =>
       setStatus "Error: Failed to fetch";;
       console_error e).

End MiniApp.

(** ** App.jsx, full version *)

Module App.

Record State := mkState {
  org : string;
  keywords : string;
  intakeId : option string;
  grants : list Grant;
  draft : option Draft;
  loading : bool;
  error : string;
  payFor : option PayFor;
  paidDraftIds : gset string
}.

(** The state of the first render: the arguments of the [useState] calls. *)
Definition initial : State :=
  mkState "" "" None [] None false "" None ∅.

Definition setOrg (v : string) : M State unit :=
  set (fun s => mkState v (keywords s) (intakeId s) (grants s) (draft s)
                        (loading s) (error s) (payFor s) (paidDraftIds s)).
Definition setKeywords (v : string) : M State unit :=
  set (fun s => mkState (org s) v (intakeId s) (grants s) (draft s)
                        (loading s) (error s) (payFor s) (paidDraftIds s)).
Definition setIntakeId (v : option string) : M State unit :=
  set (fun s => mkState (org s) (keywords s) v (grants s) (draft s)
                        (loading s) (error s) (payFor s) (paidDraftIds s)).
Definition setGrants (v : list Grant) : M State unit :=
  set (fun s => mkState (org s) (keywords s) (intakeId s) v (draft s)
                        (loading s) (error s) (payFor s) (paidDraftIds s)).
Definition setDraft (v : option Draft) : M State unit :=
  set (fun s => mkState (org s) (keywords s) (intakeId s) (grants s) v
                        (loading s) (error s) (payFor s) (paidDraftIds s)).
Definition setLoading (v : bool) : M State unit :=
  set (fun s => mkState (org s) (keywords s) (intakeId s) (grants s) (draft s)
                        v (error s) (payFor s) (paidDraftIds s)).
Definition setError (v : string) : M State unit :=
  set (fun s => mkState (org s) (keywords s) (intakeId s) (grants s) (draft s)
                        (loading s) v (payFor s) (paidDraftIds s)).
Definition setPayFor (v : option PayFor) : M State unit :=
  set (fun s => mkState (org s) (keywords s) (intakeId s) (grants s) (draft s)
                        (loading s) (error s) v (paidDraftIds s)).
Definition setPaidDraftIds (v : gset string) : M State unit :=
  set (fun s => mkState (org s) (keywords s) (intakeId s) (grants s) (draft s)
                        (loading s) (error s) (payFor s) v).

(** *** helpers *)

(** The message of the error thrown on a non-success status:
    [`API ${path} failed (${res.status})`]. *)
Definition failed_message (path : string) (status : nat) : string :=
  "API " +:+ path +:+ " failed (" +:+ pretty status +:+ ")".

(** The request [api] sends: a POST of the JSON body, or of ["{}"] when no
    body is given. *)
Definition api_request (env : Env) (path : string) (body : option Body) : Request :=
  mkRequest (Config.API_BASE env +:+ path) "POST" "application/json"
            (match body with Some b => b | None => EmptyObject end).

Definition api {St} (path : string) (body : option Body) : M St Json :=
  fun env =>
    ('(status, rb) ← do_fetch (api_request env path body);
     if ok status then res_json rb
     else throw (RequestFailed (failed_message path status))) env.

(** [x || null]. *)
Definition or_null (x : option string) : option string :=
  if truthy x then x else None.

(** *** findGrants *)

(** The [try] block. *)
Definition findGrants_try (s : State) : M State unit :=
  (* 1) create questionnaire *)
  q ← api "/questionnaire"
          (Some (QuestionnaireBody (str_or (org s) "Your Organization")
                                   (str_or (keywords s) "grants")));
  q_id ← prop q r_id;
  q_intake_id ← prop q r_intake_id;
  setIntakeId (or_null (or_else q_id q_intake_id));;
  (* 2) fetch grants *)
  g ← api "/find-grants" (Some (FindGrantsBody (keywords s)));
  g_top ← prop g r_top;
  g_items ← prop g r_items;
  setGrants (arr_or g_top g_items).

(** The [catch] block. *)
Definition findGrants_catch (e : JsError) : M State unit :=
  console_error e;;
  setError (str_or (message e) "Failed to fetch").

(** The statements before the [try]. *)
Definition findGrants_begin : M State unit :=
  setError "";;
  setDraft None;;
  setGrants [];;
  setLoading true.

Definition findGrants (s : State) : M State unit :=
  findGrants_begin;;
  try_catch_finally (findGrants_try s) findGrants_catch (setLoading false).

(** *** createDraft *)

Definition draft_body (s : State) (g : Grant) : Body :=
  DraftBody (intakeId s)
            (str_or (org s) "Your Organization")
            (mkGrantRef (g_id g) (g_title g) (g_agency g)
                        (or_lit (g_url g) "https://example.com")).

Definition createDraft_try (s : State) (g : Grant) : M State unit :=
  d ← api "/draft" (Some (draft_body s g));
  d_draft_id ← prop d r_draft_id;
  d_id' ← prop d r_id;
  d_preview' ← prop d r_preview;
  setDraft (Some (mkDraft (or_else d_draft_id d_id') (or_lit d_preview' "") g)).

Definition createDraft_catch (e : JsError) : M State unit :=
  console_error e;;
  setError (str_or (message e) "Failed to create draft").

(** The statements before the [try]. *)
Definition createDraft_begin : M State unit :=
  setError "";;
  setLoading true.

Definition createDraft (s : State) (g : Grant) : M State unit :=
  createDraft_begin;;
  try_catch_finally (createDraft_try s g) createDraft_catch (setLoading false).

(** *** exportPDF *)

Definition nl : string := String (ascii_of_nat 10) "".

(** The placeholder letter, a template literal over [orgName] and [title]. *)
Definition placeholder (orgName title : string) : string :=
  "Dear Review Committee," +:+ nl +:+ nl +:+
  "This is a generated placeholder draft for " +:+ orgName +:+
  " applying to: " +:+ title +:+ "." +:+ nl +:+ nl +:+
  "[Insert problem statement, goals, outcomes, budget summary.]" +:+ nl +:+ nl +:+
  "Sincerely," +:+ nl +:+ orgName.

(** The file name handed to [doc.save]. *)
Definition export_filename (title : string) (id : option string) : string :=
  "GFUSA_" +:+ replace_ws (slice0 40 (str_or title "draft")) +:+ "_" +:+
  slice0 8 (or_lit id "doc") +:+ ".pdf".

(** What an export hands to jsPDF: the body text that is split into lines
    under the fixed heading, and the file name.  The page layout is jsPDF's
    and is not modelled. *)
Record Export := mkExport {
  ex_body : string;
  ex_filename : string
}.

(** [None] is the early [return] of a run without active draft. *)
Definition exportPDF (s : State) : option Export :=
  match draft s with
  | None => None
  | Some d =>
      let title := or_lit (g_title (d_grant d)) "Grant Opportunity" in
      let orgName := str_or (org s) "Your Organization" in
      let body := str_or (d_preview d) (placeholder orgName title) in
      Some (mkExport body (export_filename title (d_id d)))
  end.

(** *** openPay and confirmPay *)

(** The argument of [openPay]: a grant of the list, or the active draft. *)
Inductive PayTarget :=
| OnGrant (g : Grant)
| OnDraft (d : Draft).

(** [gOrDraft.id]. *)
Definition target_id (t : PayTarget) : option string :=
  match t with OnGrant g => g_id g | OnDraft d => d_id d end.

(** [gOrDraft.grant?.id]: only a draft has a [grant]. *)
Definition target_grant_id (t : PayTarget) : option string :=
  match t with OnGrant _ => None | OnDraft d => g_id (d_grant d) end.

(** [gOrDraft.title]: only a grant has a [title]. *)
Definition target_title (t : PayTarget) : option string :=
  match t with OnGrant g => g_title g | OnDraft _ => None end.

(** [gOrDraft.grant?.title]. *)
Definition target_grant_title (t : PayTarget) : option string :=
  match t with OnGrant _ => None | OnDraft d => g_title (d_grant d) end.

Definition openPay (t : PayTarget) : M State unit :=
  let id := or_lit (or_else (target_id t) (target_grant_id t)) "unknown" in
  let title := or_lit (or_else (target_title t) (target_grant_title t)) "Draft" in
  setPayFor (Some (mkPayFor id title)).

Definition confirmPay (s : State) : M State unit :=
  match payFor s with
  | Some p =>
      if truthy_str (pf_id p)
      then setPaidDraftIds (paidDraftIds s ∪ {[pf_id p]})
      else ret tt
  | None => ret tt
  end;;
  setPayFor None.

(** *** The session *)

(** What the user can do on the page. *)
Inductive Action :=
| TypeOrg (v : string)
| TypeKeywords (v : string)
| ClickFindGrants
| ClickDraft (g : Grant)
| ClickDownloadPDF
| ClickPayment (t : PayTarget)
| ClickMarkAsPaid
| CloseModal.

(** The handler an action runs, closed over the rendered state [s]. *)
Definition handler (a : Action) (s : State) : M State unit :=
  match a with
  | TypeOrg v => setOrg v
  | TypeKeywords v => setKeywords v
  | ClickFindGrants => findGrants s
  | ClickDraft g => createDraft s g
  | ClickDownloadPDF => ret tt
  | ClickPayment t => openPay t
  | ClickMarkAsPaid => confirmPay s
  | CloseModal => setPayFor None
  end.

(** A handler run to completion on the state it was rendered from. *)
Definition run (h : State -> M State unit) (env : Env) (s : State)
  : Outcome unit * World State :=
  h s env (mkWorld s [] []).

Definition step (s : State) (ea : Env * Action) : State :=
  app (snd (run (handler (snd ea)) (fst ea) s)).

(** A session: actions handled one after the other, each with the network
    behaviour of its time. *)
Definition session (s : State) (l : list (Env * Action)) : State :=
  fold_left step l s.

(** Mark paid: the Payment button of the target, then "Mark as Paid". *)
Definition markPaid (env : Env) (t : PayTarget) (s : State) : State :=
  session s [(env, ClickPayment t); (env, ClickMarkAsPaid)].

(** *** render *)

(** The key of a grant of the list: [g.id || g.title]. *)
Definition grant_key (g : Grant) : option string := or_else (g_id g) (g_title g).

(** [paidDraftIds.has(id)], the PAID tag of a grant of the list; the set
    holds strings only, so a key that is [undefined] is not in it. *)
Definition isPaid (s : State) (g : Grant) : bool :=
  match grant_key g with
  | Some k => bool_decide (k ∈ paidDraftIds s)
  | None => false
  end.

End App.

(** ** Vocabulary of the statements *)

Import App.

(** The world once request [r] has gone out. *)
Definition sent {St} (w : World St) (r : Request) : World St :=
  mkWorld (app w) (calls w ++ [r]) (console w).

(** The backend answers request [r] with a success status and the JSON
    value [v]. *)
Definition responds (env : Env) (r : Request) (v : Json) : Prop :=
  exists status, fetch env r = Resolves status (IsJson v) /\ ok status = true.

(** What a call of [api] comes to, the request log apart. *)
Definition api_outcome (env : Env) (path : string) (body : option Body) : Outcome Json :=
  match fetch env (api_request env path body) with
  | Rejects m => Thrown (NetworkError m)
  | Resolves status rb =>
      if ok status
      then match rb with
           | NotJson m => Thrown (DecodeError m)
           | IsJson v => Returned v
           end
      else Thrown (RequestFailed (failed_message path status))
  end.

(** The two requests of a search and the request of a draft. *)
Definition questionnaire_request (env : Env) (s : State) : Request :=
  api_request env "/questionnaire"
    (Some (QuestionnaireBody (str_or (org s) "Your Organization")
                             (str_or (keywords s) "grants"))).

Definition find_grants_request (env : Env) (s : State) : Request :=
  api_request env "/find-grants" (Some (FindGrantsBody (keywords s))).

Definition draft_request (env : Env) (s : State) (g : Grant) : Request :=
  api_request env "/draft" (Some (draft_body s g)).

(** The error of a failed search, computed from the two answers: the first
    call's error, else the second's; a [null] body fails the property read
    that follows the call. *)
Definition search_failure (env : Env) (s : State) : option JsError :=
  match api_outcome env "/questionnaire"
          (Some (QuestionnaireBody (str_or (org s) "Your Organization")
                                   (str_or (keywords s) "grants"))) with
  | Thrown e => Some e
  | Returned JNull => Some (TypeError "Cannot read properties of null")
  | Returned (JObject _) =>
      match api_outcome env "/find-grants" (Some (FindGrantsBody (keywords s))) with
      | Thrown e => Some e
      | Returned JNull => Some (TypeError "Cannot read properties of null")
      | Returned (JObject _) => None
      end
  end.

(** What a call of the minimal client's [findGrants] comes to, the request
    log apart. *)
Definition shortlist_outcome (env : Env) (org kws : string) : Outcome Json :=
  match fetch env (Fetcher.request env org kws) with
  | Rejects m => Thrown (NetworkError m)
  | Resolves status rb =>
      if ok status
      then match rb with
           | NotJson m => Thrown (DecodeError m)
           | IsJson v => Returned v
           end
      else Thrown (RequestFailed ("Shortlist " +:+ pretty status))
  end.

(** The identifier [openPay] resolves for a target. *)
Definition resolved_id (t : PayTarget) : string :=
  or_lit (or_else (target_id t) (target_grant_id t)) "unknown".

(** The characters of a string. *)
Definition chars (s : string) : list ascii := list_ascii_of_string s.

(** Sample data of the scenarios. *)
Module Sample.

Definition stem_fund : Grant :=
  mkGrant (Some "g1") (Some "STEM Fund") None None None None None.
Definition arts : Grant :=
  mkGrant (Some "g2") (Some "Arts Grant") (Some "NEA") None None None None.
Definition vets : Grant :=
  mkGrant (Some "g3") (Some "Veterans Aid") None (Some "https://va.example") None None None.

Definition three_grants : list Grant := [stem_fund; arts; vets].

(** A backend that answers every request with status 200 and a JSON object
    carrying an intake id and three grants, under [top] and under
    [results]. *)
Definition backend_ok : Env :=
  mkEnv None (fun _ => Resolves 200 (IsJson (JObject
    (mkResp (Some "in-7") None (Some three_grants) None (Some three_grants)
            (Some "d-0123456789") None)))).

(** A network that is down; the rejection has message [msg]. *)
Definition network_down (msg : string) : Env :=
  mkEnv None (fun _ => Rejects msg).

(** A backend that answers every request with status 500 and an HTML page. *)
Definition backend_500 : Env :=
  mkEnv None (fun _ => Resolves 500 (NotJson "Unexpected token <")).

(** A backend whose questionnaire endpoint works and whose other endpoints
    answer 503. *)
Definition search_down : Env :=
  mkEnv None (fun r =>
    if String.eqb (req_url r) (Config.default_base +:+ "/questionnaire")
    then Resolves 200 (IsJson (JObject
           (mkResp (Some "in-7") None None None None None None)))
    else Resolves 503 (IsJson JNull)).

(** The form of the scenario: organization "Acme", no keywords. *)
Definition acme : State := mkState "Acme" "" None [] None false "" None ∅.

(** A page that shows an earlier search and its draft. *)
Definition busy : State :=
  mkState "Acme" "stem" (Some "in-1") three_grants
          (Some (mkDraft (Some "d-1") "Dear committee" stem_fund))
          false "" None ∅.

End Sample.

(** ** The claims as the specification words them

    Each is stated on the code as written, to be settled below. *)

(** The claim as worded: no state is written before a call has fully
    succeeded, so a search whose first call fails leaves the data it found. *)
Definition mutation_only_after_success (env : Env) (s : State) : Prop :=
  forall e,
    api_outcome env "/questionnaire"
      (Some (QuestionnaireBody (str_or (org s) "Your Organization")
                               (str_or (keywords s) "grants"))) = Thrown e ->
    grants (app (snd (run findGrants env s))) = grants s /\
    draft (app (snd (run findGrants env s))) = draft s.

(** The claim as worded, for the full client, whose only message line is
    [error]: after a search whose calls are both answered, the grant list is
    the server's and the message reports its length. *)
Definition count_message_after_search (env : Env) (s : State) : Prop :=
  forall q g,
    responds env (questionnaire_request env s) (JObject q) ->
    responds env (find_grants_request env s) (JObject g) ->
    grants (app (snd (run findGrants env s))) = arr_or (r_top g) (r_items g) /\
    error (app (snd (run findGrants env s))) =
      "Found " +:+ pretty (length (arr_or (r_top g) (r_items g))) +:+ " item(s)".

(** The claim as worded: a rejected [fetch] is a [NetworkError], every
    non-success status a [RequestFailed] with path and status, every body
    that is not JSON a [DecodeError]. *)
Definition api_failure_kinds (env : Env) (path : string) (body : option Body) : Prop :=
  let r := api_request env path body in
  let thrown := fst (api path body env (mkWorld tt [] [])) in
  (forall m, fetch env r = Rejects m -> thrown = Thrown (NetworkError m)) /\
  (forall status rb, fetch env r = Resolves status rb -> ok status = false ->
     thrown = Thrown (RequestFailed (failed_message path status))) /\
  (forall status m, fetch env r = Resolves status (NotJson m) ->
     thrown = Thrown (DecodeError m)).

(** The claim as worded: when the [try] block of a draft request throws
    [e], the active draft is the one before and the error line is the
    message of [e]. *)
Definition draft_failure_shows_message (env : Env) (s : State) (g : Grant) : Prop :=
  forall e,
    fst (createDraft_try s g env (mkWorld s [] [])) = Thrown e ->
    draft (app (snd (run (fun s => createDraft s g) env s))) = draft s /\
    error (app (snd (run (fun s => createDraft s g) env s))) = message e.

(** The claim as worded, for a draft that has a title and an id: without
    active draft nothing happens; with an empty preview the body is the
    placeholder letter, it contains the organization name and the grant
    title, and the file name is "GFUSA_", the first 40 characters of the
    title with white space collapsed, "_", the first 8 characters of the
    draft id, ".pdf". *)
Definition export_as_worded (s : State) : Prop :=
  match draft s with
  | None => exportPDF s = None
  | Some d =>
      d_preview d = "" ->
      forall title id, g_title (d_grant d) = Some title -> d_id d = Some id ->
      exists e,
        exportPDF s = Some e /\
        (exists o t, ex_body e = placeholder o t) /\
        occurs_in (org s) (ex_body e) /\
        occurs_in title (ex_body e) /\
        ex_filename e =
          "GFUSA_" +:+ replace_ws (slice0 40 title) +:+ "_" +:+ slice0 8 id +:+ ".pdf"
  end.

(** ** Running the monad *)

Ltac munfold :=
  unfold mbind, M_bind, mret, M_ret, bind, ret, throw in *.

Ltac setters :=
  unfold setError, setDraft, setGrants, setLoading, setIntakeId, setPayFor,
    setPaidDraftIds, setOrg, setKeywords, console_error, set in *.

(** Some values of the string helpers. *)
Example replace_ws_collapses_runs :
  replace_ws ("a " +:+ String (ascii_of_nat 9) " b" +:+ nl +:+ "c") = "a_b_c".
Proof. reflexivity. Qed.

Example slice0_short_string : slice0 8 "doc" = "doc".
Proof. reflexivity. Qed.

Example or_else_skips_empty : or_else (Some "") (Some "in-7") = Some "in-7".
Proof. reflexivity. Qed.

Example arr_or_keeps_empty_top :
  arr_or (Some []) (Some [Sample.arts]) = [].
Proof. reflexivity. Qed.

Example ok_range : ok 199 = false /\ ok 200 = true /\ ok 299 = true /\ ok 300 = false.
Proof. repeat split. Qed.

Lemma api_run {St} (path : string) (body : option Body) (env : Env) (w : World St) :
  api path body env w = (api_outcome env path body, sent w (api_request env path body)).
Proof.
  unfold api, api_outcome, do_fetch, res_json, sent. munfold.
  destruct (fetch env (api_request env path body)) as [m | status rb]; [reflexivity |].
  destruct (ok status); [| reflexivity].
  destruct rb; reflexivity.
Qed.

Lemma responds_outcome (env : Env) (path : string) (body : option Body) (v : Json) :
  responds env (api_request env path body) v ->
  api_outcome env path body = Returned v.
Proof.
  intros (status & Hf & Hok). unfold api_outcome. rewrite Hf, Hok. reflexivity.
Qed.

(** The outcome of the [try] block of a search does not depend on the live
    world, only on the snapshot and the network. *)
Lemma findGrants_try_outcome (s : State) (env : Env) (w w' : World State) :
  fst (findGrants_try s env w) = fst (findGrants_try s env w').
Proof.
  unfold findGrants_try, prop. munfold. rewrite !api_run.
  destruct (api_outcome env "/questionnaire" _) as [[| q] | e]; simpl; try reflexivity.
  rewrite !api_run.
  destruct (api_outcome env "/find-grants" _) as [[| g] | e]; reflexivity.
Qed.

Lemma createDraft_try_outcome (s : State) (g : Grant) (env : Env) (w w' : World State) :
  fst (createDraft_try s g env w) = fst (createDraft_try s g env w').
Proof.
  unfold createDraft_try, prop. munfold. rewrite !api_run.
  destruct (api_outcome env "/draft" _) as [[| d] | e]; reflexivity.
Qed.

(** The statements before the [try] of a search send nothing; they clear
    the error, the draft and the grants and raise the loading flag. *)
Lemma findGrants_begin_run (env : Env) (w : World State) :
  findGrants_begin env w =
  (Returned tt,
   mkWorld (mkState (org (app w)) (keywords (app w)) (intakeId (app w)) [] None
                    true "" (payFor (app w)) (paidDraftIds (app w)))
           (calls w) (console w)).
Proof. reflexivity. Qed.

Lemma createDraft_begin_run (env : Env) (w : World State) :
  createDraft_begin env w =
  (Returned tt,
   mkWorld (mkState (org (app w)) (keywords (app w)) (intakeId (app w))
                    (grants (app w)) (draft (app w))
                    true "" (payFor (app w)) (paidDraftIds (app w)))
           (calls w) (console w)).
Proof. reflexivity. Qed.

(** A failing [try] block of a search leaves grants and draft as it found
    them: the only setter it may have reached is [setIntakeId]. *)
Lemma findGrants_try_thrown (s : State) (env : Env) (w w1 : World State) (e : JsError) :
  findGrants_try s env w = (Thrown e, w1) ->
  grants (app w1) = grants (app w) /\ draft (app w1) = draft (app w) /\
  loading (app w1) = loading (app w) /\ error (app w1) = error (app w) /\
  paidDraftIds (app w1) = paidDraftIds (app w) /\ console w1 = console w.
Proof.
  unfold findGrants_try, prop. munfold. rewrite api_run.
  destruct (api_outcome env "/questionnaire" _) as [[| q] | e1]; simpl;
    try (intros [= <- <-]; simpl; tauto).
  rewrite api_run.
  destruct (api_outcome env "/find-grants" _) as [[| g] | e2]; simpl;
    intros [= <- <-]; simpl; tauto.
Qed.

(** What a failed search leaves behind. *)
Lemma findGrants_failure (s : State) (env : Env) (w : World State) (e : JsError) :
  fst (findGrants_try s env w) = Thrown e ->
  fst (findGrants s env w) = Returned tt /\
  grants (app (snd (findGrants s env w))) = [] /\
  draft (app (snd (findGrants s env w))) = None /\
  loading (app (snd (findGrants s env w))) = false /\
  error (app (snd (findGrants s env w))) = str_or (message e) "Failed to fetch" /\
  paidDraftIds (app (snd (findGrants s env w))) = paidDraftIds (app w) /\
  console (snd (findGrants s env w)) = (console w ++ [e])%list.
Proof.
  intros Hthrown. unfold findGrants. munfold.
  rewrite findGrants_begin_run. unfold try_catch_finally.
  match goal with |- context [findGrants_try s env ?w0] =>
    rewrite (findGrants_try_outcome s env w w0) in Hthrown;
    destruct (findGrants_try s env w0) as [r1 w1] eqn:Htry
  end.
  simpl in Hthrown. subst r1.
  apply findGrants_try_thrown in Htry. simpl in Htry.
  destruct Htry as (Hg & Hd & _ & _ & Hp & Hc).
  unfold findGrants_catch. setters. munfold. simpl.
  rewrite Hg, Hd, Hp, Hc. tauto.
Qed.

(** What a search leaves behind when both calls are answered. *)
Lemma findGrants_success (s : State) (env : Env) (w : World State) (q g : RespFields) :
  responds env (questionnaire_request env s) (JObject q) ->
  responds env (find_grants_request env s) (JObject g) ->
  findGrants s env w =
  (Returned tt,
   mkWorld (mkState (org (app w)) (keywords (app w))
                    (or_null (or_else (r_id q) (r_intake_id q)))
                    (arr_or (r_top g) (r_items g)) None false ""
                    (payFor (app w)) (paidDraftIds (app w)))
           (calls w ++ [questionnaire_request env s] ++ [find_grants_request env s])
           (console w)).
Proof.
  intros Hq Hg. apply responds_outcome in Hq, Hg.
  unfold findGrants. munfold. rewrite findGrants_begin_run.
  unfold try_catch_finally, findGrants_try, prop. munfold.
  rewrite api_run. fold (questionnaire_request env s).
  unfold questionnaire_request in Hq. rewrite Hq. simpl.
  rewrite api_run. unfold find_grants_request in Hg. rewrite Hg. simpl.
  unfold sent. simpl. rewrite <- app_assoc. reflexivity.
Qed.

(** A failing [try] block of a draft request has reached no setter. *)
Lemma createDraft_try_thrown (s : State) (g : Grant) (env : Env)
    (w w1 : World State) (e : JsError) :
  createDraft_try s g env w = (Thrown e, w1) ->
  app w1 = app w /\ console w1 = console w.
Proof.
  unfold createDraft_try, prop. munfold. rewrite api_run.
  destruct (api_outcome env "/draft" _) as [[| d] | e1]; simpl;
    intros [= <- <-]; simpl; tauto.
Qed.

(** What a failed draft request leaves behind. *)
Lemma createDraft_failure (s : State) (g : Grant) (env : Env)
    (w : World State) (e : JsError) :
  fst (createDraft_try s g env w) = Thrown e ->
  fst (createDraft s g env w) = Returned tt /\
  draft (app (snd (createDraft s g env w))) = draft (app w) /\
  grants (app (snd (createDraft s g env w))) = grants (app w) /\
  loading (app (snd (createDraft s g env w))) = false /\
  error (app (snd (createDraft s g env w))) = str_or (message e) "Failed to create draft" /\
  paidDraftIds (app (snd (createDraft s g env w))) = paidDraftIds (app w).
Proof.
  intros Hthrown. unfold createDraft. munfold.
  rewrite createDraft_begin_run. unfold try_catch_finally.
  match goal with |- context [createDraft_try s g env ?w0] =>
    rewrite (createDraft_try_outcome s g env w w0) in Hthrown;
    destruct (createDraft_try s g env w0) as [r1 w1] eqn:Htry
  end.
  simpl in Hthrown. subst r1.
  apply createDraft_try_thrown in Htry. simpl in Htry.
  destruct Htry as (Ha & Hc).
  unfold createDraft_catch. setters. munfold. simpl.
  rewrite Ha. simpl. tauto.
Qed.

(** What a draft request leaves behind when the call is answered. *)
Lemma createDraft_success (s : State) (g : Grant) (env : Env)
    (w : World State) (d : RespFields) :
  responds env (draft_request env s g) (JObject d) ->
  createDraft s g env w =
  (Returned tt,
   mkWorld (mkState (org (app w)) (keywords (app w)) (intakeId (app w))
                    (grants (app w))
                    (Some (mkDraft (or_else (r_draft_id d) (r_id d))
                                   (or_lit (r_preview d) "") g))
                    false "" (payFor (app w)) (paidDraftIds (app w)))
           (calls w ++ [draft_request env s g])
           (console w)).
Proof.
  intros Hd. apply responds_outcome in Hd.
  unfold createDraft. munfold. rewrite createDraft_begin_run.
  unfold try_catch_finally, createDraft_try, prop. munfold.
  rewrite api_run. unfold draft_request in Hd. rewrite Hd. simpl.
  reflexivity.
Qed.

(** Whatever the network does, a draft request sends exactly one call. *)
Lemma createDraft_calls (s : State) (g : Grant) (env : Env) (w : World State) :
  calls (snd (createDraft s g env w)) = (calls w ++ [draft_request env s g])%list.
Proof.
  unfold createDraft. munfold. rewrite createDraft_begin_run.
  unfold try_catch_finally, createDraft_try, prop. munfold.
  rewrite api_run. fold (draft_request env s g).
  destruct (api_outcome env "/draft" _) as [[| d] | e1]; reflexivity.
Qed.

(** Whatever the network does, a search or a draft request runs to its end
    with the loading flag down. *)
Lemma findGrants_completes (s : State) (env : Env) (w : World State) :
  fst (findGrants s env w) = Returned tt /\
  loading (app (snd (findGrants s env w))) = false.
Proof.
  unfold findGrants. munfold. rewrite findGrants_begin_run.
  unfold try_catch_finally.
  match goal with |- context [findGrants_try s env ?w0] =>
    destruct (findGrants_try s env w0) as [[[]| e] w1]
  end; split; reflexivity.
Qed.

Lemma createDraft_completes (s : State) (g : Grant) (env : Env) (w : World State) :
  fst (createDraft s g env w) = Returned tt /\
  loading (app (snd (createDraft s g env w))) = false.
Proof.
  unfold createDraft. munfold. rewrite createDraft_begin_run.
  unfold try_catch_finally.
  match goal with |- context [createDraft_try s g env ?w0] =>
    destruct (createDraft_try s g env w0) as [[[]| e] w1]
  end; split; reflexivity.
Qed.

(** The intake reference is written as soon as the questionnaire call is
    answered, whatever the grant search then does. *)
Lemma findGrants_intake (s : State) (env : Env) (w : World State) (q : RespFields) :
  responds env (questionnaire_request env s) (JObject q) ->
  intakeId (app (snd (findGrants s env w))) = or_null (or_else (r_id q) (r_intake_id q)).
Proof.
  intros Hq. apply responds_outcome in Hq.
  unfold findGrants. munfold. rewrite findGrants_begin_run.
  unfold try_catch_finally, findGrants_try, prop. munfold.
  rewrite api_run. unfold questionnaire_request in Hq. rewrite Hq. simpl.
  rewrite api_run.
  destruct (api_outcome env "/find-grants" _) as [[| g] | e]; reflexivity.
Qed.

Lemma findGrants_try_fails_iff (s : State) (env : Env) (w : World State) (e : JsError) :
  fst (findGrants_try s env w) = Thrown e <-> search_failure env s = Some e.
Proof.
  unfold findGrants_try, search_failure, prop. munfold. rewrite api_run.
  destruct (api_outcome env "/questionnaire" _) as [[| q] | e1]; simpl;
    try (split; intros [= ->]; reflexivity).
  rewrite api_run.
  destruct (api_outcome env "/find-grants" _) as [[| g] | e2]; simpl;
    split; intros [= ->]; reflexivity.
Qed.

(** ** The claims *)

(** *** C1: defaults of a search *)

Lemma str_or_nonempty (s d : string) : d <> "" -> str_or s d <> "".
Proof.
  intros Hd. unfold str_or, truthy_str.
  destruct (String.eqb_spec s ""); simpl; congruence.
Qed.

(** The questionnaire call of a search always carries the substituted
    values. *)
Lemma questionnaire_request_defaults (env : Env) (s : State) :
  exists name kws,
    req_body (questionnaire_request env s) = QuestionnaireBody name kws /\
    name <> "" /\ kws <> "".
Proof.
  eexists _, _. split; [reflexivity |].
  split; apply str_or_nonempty; discriminate.
Qed.

(** The single call of the minimal client's search carries the substituted
    values as well. *)
Lemma handleFind_calls (s : MiniApp.State) (env : Env) (w : World MiniApp.State) :
  calls (snd (MiniApp.handleFind s env w)) =
  (calls w ++ [Fetcher.request env (str_or (MiniApp.org s) "Your Organization")
                                   (str_or (MiniApp.kw s) "community")])%list.
Proof.
  unfold MiniApp.handleFind, try_catch, try_catch_finally, Fetcher.findGrants,
    do_fetch, res_json, prop, MiniApp.setStatus, MiniApp.setResults,
    console_error, set.
  munfold. simpl.
  destruct (fetch env _) as [m | status [m | [| d]]]; simpl;
    try destruct (ok status); reflexivity.
Qed.

(** C1 (the code departs from the claim): on the form of the scenario,
    organization "Acme" and empty keywords, with a backend that answers both
    calls, the search sends the questionnaire with the substituted keywords
    "grants" and then the grant-search request with the EMPTY keywords: the
    second call of [findGrants] passes [keywords] as typed. *)
Theorem C1_find_grants_call_keeps_empty_keywords :
  calls (snd (run findGrants Sample.backend_ok Sample.acme)) =
  [ mkRequest "https://grantforgeusa-v11-backend.onrender.com/questionnaire"
              "POST" "application/json" (QuestionnaireBody "Acme" "grants");
    mkRequest "https://grantforgeusa-v11-backend.onrender.com/find-grants"
              "POST" "application/json" (FindGrantsBody "") ].
Proof. vm_compute. reflexivity. Qed.

(** *** C2: read-then-apply *)

(** C2, counterexample: on a page that shows three grants and a draft, a
    search over a network that is down (no call succeeds) has cleared both. *)
Lemma C2_cleared_before_any_success :
  ~ mutation_only_after_success (Sample.network_down "Failed to fetch") Sample.busy.
Proof.
  intros H. destruct (H (NetworkError "Failed to fetch")) as [Hg _].
  - reflexivity.
  - vm_compute in Hg. discriminate Hg.
Qed.

(** C2, amended: a search rolls nothing back.  Before the first call it
    clears the error, the draft and the grant list and raises the loading
    flag; it writes the intake reference once the questionnaire call is
    answered, and keeps it when the grant search then fails; it applies a
    server grant list only after both calls.  So when either step fails
    with [e] the grant list is the empty one and the error shown is the
    message of [e], or "Failed to fetch" when that message is empty. *)
Theorem C2_search_failure_no_rollback (s : State) (env : Env) (w : World State) :
  (calls (snd (findGrants_begin env w)) = calls w /\
   grants (app (snd (findGrants_begin env w))) = [] /\
   draft (app (snd (findGrants_begin env w))) = None /\
   error (app (snd (findGrants_begin env w))) = "" /\
   loading (app (snd (findGrants_begin env w))) = true) /\
  (forall e, fst (findGrants_try s env w) = Thrown e ->
     grants (app (snd (findGrants s env w))) = [] /\
     error (app (snd (findGrants s env w))) = str_or (message e) "Failed to fetch") /\
  (forall q, responds env (questionnaire_request env s) (JObject q) ->
     intakeId (app (snd (findGrants s env w))) =
     or_null (or_else (r_id q) (r_intake_id q))).
Proof.
  split; [| split].
  - rewrite findGrants_begin_run. simpl. tauto.
  - intros e He. apply findGrants_failure in He. tauto.
  - intros q Hq. apply findGrants_intake. exact Hq.
Qed.

(** C2, witness: the questionnaire is answered with intake id "in-7", the
    grant search answers 503; the page shows no grants, the 503 message, and
    keeps the new intake id. *)
Lemma C2_search_failure_no_rollback_witness :
  fst (findGrants_try Sample.busy Sample.search_down (mkWorld Sample.busy [] []))
    = Thrown (RequestFailed "API /find-grants failed (503)") /\
  responds Sample.search_down (questionnaire_request Sample.search_down Sample.busy)
    (JObject (mkResp (Some "in-7") None None None None None None)) /\
  grants (app (snd (run findGrants Sample.search_down Sample.busy))) = [] /\
  error (app (snd (run findGrants Sample.search_down Sample.busy)))
    = "API /find-grants failed (503)" /\
  intakeId (app (snd (run findGrants Sample.search_down Sample.busy))) = Some "in-7".
Proof.
  assert (Hthrown :
    fst (findGrants_try Sample.busy Sample.search_down (mkWorld Sample.busy [] []))
    = Thrown (RequestFailed "API /find-grants failed (503)")) by (vm_compute; reflexivity).
  assert (Hq :
    responds Sample.search_down (questionnaire_request Sample.search_down Sample.busy)
      (JObject (mkResp (Some "in-7") None None None None None None)))
    by (exists 200%nat; split; vm_compute; reflexivity).
  destruct (C2_search_failure_no_rollback Sample.busy Sample.search_down
              (mkWorld Sample.busy [] [])) as (_ & Hfail & Hintake).
  destruct (Hfail _ Hthrown) as [Hg He].
  split; [exact Hthrown |]. split; [exact Hq |].
  split; [exact Hg |]. split; [exact He |].
  exact (Hintake _ Hq).
Defined.

(** *** C3: a successful search *)

(** What the minimal client's search leaves behind when its call is
    answered. *)
Lemma handleFind_success (s : MiniApp.State) (env : Env) (w : World MiniApp.State)
    (d : RespFields) :
  responds env (Fetcher.request env (str_or (MiniApp.org s) "Your Organization")
                                    (str_or (MiniApp.kw s) "community")) (JObject d) ->
  MiniApp.results (app (snd (MiniApp.handleFind s env w))) = arr_or (r_results d) None /\
  MiniApp.status (app (snd (MiniApp.handleFind s env w))) = MiniApp.found_message (r_results d).
Proof.
  intros (status & Hf & Hok).
  unfold MiniApp.handleFind, try_catch, try_catch_finally, Fetcher.findGrants,
    do_fetch, res_json, prop, MiniApp.setStatus, MiniApp.setResults,
    console_error, set.
  munfold. simpl. rewrite Hf, Hok. simpl. split; reflexivity.
Qed.

(** C3, counterexample: the backend answers both calls and returns three
    grants; the full client shows them and no message at all. *)
Lemma C3_full_client_sets_no_count_message :
  ~ count_message_after_search Sample.backend_ok Sample.acme.
Proof.
  intros H.
  destruct (H (mkResp (Some "in-7") None (Some Sample.three_grants) None
                      (Some Sample.three_grants) (Some "d-0123456789") None)
              (mkResp (Some "in-7") None (Some Sample.three_grants) None
                      (Some Sample.three_grants) (Some "d-0123456789") None))
    as [_ He].
  - exists 200%nat. split; reflexivity.
  - exists 200%nat. split; reflexivity.
  - vm_compute in He. discriminate He.
Qed.

(** C3, amended: a search of the full client whose two calls are answered
    replaces the grant list with exactly the server's list ([top], else
    [items], else the empty list), order kept, and leaves the message line
    empty; it sets no count-bearing message.  The count-bearing message
    "Found N item(s)" is the minimal client's: its search, one call,
    replaces the results with the server's [results] list and reports its
    length. *)
Theorem C3_search_success (env : Env) :
  (forall (s : State) (w : World State) (q g : RespFields),
     responds env (questionnaire_request env s) (JObject q) ->
     responds env (find_grants_request env s) (JObject g) ->
     fst (findGrants s env w) = Returned tt /\
     grants (app (snd (findGrants s env w))) = arr_or (r_top g) (r_items g) /\
     error (app (snd (findGrants s env w))) = "") /\
  (forall (s : MiniApp.State) (w : World MiniApp.State) (d : RespFields) (l : list Grant),
     responds env (Fetcher.request env (str_or (MiniApp.org s) "Your Organization")
                                       (str_or (MiniApp.kw s) "community")) (JObject d) ->
     r_results d = Some l ->
     MiniApp.results (app (snd (MiniApp.handleFind s env w))) = l /\
     MiniApp.status (app (snd (MiniApp.handleFind s env w))) =
       "Found " +:+ pretty (length l) +:+ " item(s)").
Proof.
  split.
  - intros s w q g Hq Hg. rewrite (findGrants_success s env w q g Hq Hg).
    simpl. tauto.
  - intros s w d l Hd Hl. destruct (handleFind_success s env w d Hd) as [Hr Hs].
    rewrite Hr, Hs, Hl. split; reflexivity.
Qed.

(** C3, witness: three grants come back; the full client lists them under an
    empty message line, the minimal client under "Found 3 item(s)". *)
Lemma C3_search_success_witness :
  (grants (app (snd (run findGrants Sample.backend_ok Sample.acme))) = Sample.three_grants /\
   error (app (snd (run findGrants Sample.backend_ok Sample.acme))) = "") /\
  (MiniApp.results (app (snd (MiniApp.handleFind (MiniApp.mkState "Acme" "" "" [])
      Sample.backend_ok (mkWorld (MiniApp.mkState "Acme" "" "" []) [] []))))
     = Sample.three_grants /\
   MiniApp.status (app (snd (MiniApp.handleFind (MiniApp.mkState "Acme" "" "" [])
      Sample.backend_ok (mkWorld (MiniApp.mkState "Acme" "" "" []) [] []))))
     = "Found 3 item(s)").
Proof.
  destruct (C3_search_success Sample.backend_ok) as [Hfull Hmini].
  split.
  - destruct (Hfull Sample.acme (mkWorld Sample.acme [] [])
       (mkResp (Some "in-7") None (Some Sample.three_grants) None
               (Some Sample.three_grants) (Some "d-0123456789") None)
       (mkResp (Some "in-7") None (Some Sample.three_grants) None
               (Some Sample.three_grants) (Some "d-0123456789") None))
      as (_ & Hg & He).
    + exists 200%nat. split; reflexivity.
    + exists 200%nat. split; reflexivity.
    + split; [exact Hg | exact He].
  - apply (Hmini (MiniApp.mkState "Acme" "" "" [])
             (mkWorld (MiniApp.mkState "Acme" "" "" []) [] [])
             (mkResp (Some "in-7") None (Some Sample.three_grants) None
                     (Some Sample.three_grants) (Some "d-0123456789") None)
             Sample.three_grants).
    + exists 200%nat. split; reflexivity.
    + reflexivity.
Defined.

(** *** C4: the failures of the API client *)

Lemma occurs_in_middle (pre x post : string) : occurs_in x (pre +:+ x +:+ post).
Proof. exists pre, post. reflexivity. Qed.

Lemma append_assoc (a b c : string) : (a +:+ b) +:+ c = a +:+ (b +:+ c).
Proof.
  induction a as [| ch a IH]; [reflexivity |].
  exact (f_equal (String ch) IH).
Qed.

(** The message of a failed request carries the path and the status code. *)
Lemma failed_message_carries (path : string) (status : nat) :
  occurs_in path (failed_message path status) /\
  occurs_in (pretty status) (failed_message path status).
Proof.
  unfold failed_message. split.
  - apply occurs_in_middle.
  - exists ("API " +:+ path +:+ " failed ("), ")".
    rewrite !append_assoc. reflexivity.
Qed.

(** C4, counterexample: the backend answers 500 with an HTML page; the body
    is not JSON, and the client fails with [RequestFailed], not with
    [DecodeError], because it checks the status before it reads the body. *)
Lemma C4_status_checked_before_body :
  ~ api_failure_kinds Sample.backend_500 "/draft" None.
Proof.
  intros (_ & _ & H).
  specialize (H 500%nat "Unexpected token <" eq_refl).
  vm_compute in H. discriminate H.
Qed.

(** C4, amended: the API client fails in three ways.  A rejected [fetch]
    fails with that [NetworkError]; every non-success status, whatever the
    body, fails with a [RequestFailed] whose message carries the request
    path and the status code; a body that is not JSON fails with a
    [DecodeError] when the status is a success status. *)
Theorem C4_api_failures {St} (env : Env) (path : string) (body : option Body)
    (w : World St) :
  (forall m, fetch env (api_request env path body) = Rejects m ->
     fst (api path body env w) = Thrown (NetworkError m)) /\
  (forall status rb,
     fetch env (api_request env path body) = Resolves status rb ->
     ok status = false ->
     fst (api path body env w) = Thrown (RequestFailed (failed_message path status)) /\
     failed_message path status = "API " +:+ path +:+ " failed (" +:+ pretty status +:+ ")" /\
     occurs_in path (failed_message path status) /\
     occurs_in (pretty status) (failed_message path status)) /\
  (forall status m,
     fetch env (api_request env path body) = Resolves status (NotJson m) ->
     ok status = true ->
     fst (api path body env w) = Thrown (DecodeError m)).
Proof.
  rewrite api_run. unfold api_outcome. simpl. split; [| split].
  - intros m ->. reflexivity.
  - intros status rb -> ->. split; [reflexivity |]. split; [reflexivity |].
    apply failed_message_carries.
  - intros status m -> ->. reflexivity.
Qed.

(** C4, witness: a network that is down, a 500 answer, and a 200 answer
    whose body is an HTML page. *)
Lemma C4_api_failures_witness :
  fst (api "/draft" None (Sample.network_down "Failed to fetch") (mkWorld tt [] []))
    = Thrown (NetworkError "Failed to fetch") /\
  fst (api "/draft" None Sample.backend_500 (mkWorld tt [] []))
    = Thrown (RequestFailed "API /draft failed (500)") /\
  fst (api "/draft" None (mkEnv None (fun _ => Resolves 200 (NotJson "Unexpected token <")))
         (mkWorld tt [] []))
    = Thrown (DecodeError "Unexpected token <").
Proof.
  split; [| split].
  - apply (C4_api_failures (Sample.network_down "Failed to fetch") "/draft" None
             (mkWorld tt [] [])).
    reflexivity.
  - apply (proj1 (proj2 (C4_api_failures Sample.backend_500 "/draft" None
             (mkWorld tt [] []))) 500%nat (NotJson "Unexpected token <")); reflexivity.
  - apply (proj2 (proj2 (C4_api_failures
             (mkEnv None (fun _ => Resolves 200 (NotJson "Unexpected token <")))
             "/draft" None (mkWorld tt [] []))) 200%nat); reflexivity.
Defined.

(** The minimal client's helper fails the same three ways; its
    [RequestFailed] message names the endpoint by a label, "Shortlist",
    and carries the status code. *)
Lemma fetcher_findGrants_failures {St} (env : Env) (org kws : string) (w : World St) :
  (forall m, fetch env (Fetcher.request env org kws) = Rejects m ->
     fst (Fetcher.findGrants org kws env w) = Thrown (NetworkError m)) /\
  (forall status rb, fetch env (Fetcher.request env org kws) = Resolves status rb ->
     ok status = false ->
     fst (Fetcher.findGrants org kws env w)
       = Thrown (RequestFailed ("Shortlist " +:+ pretty status))) /\
  (forall status m, fetch env (Fetcher.request env org kws) = Resolves status (NotJson m) ->
     ok status = true ->
     fst (Fetcher.findGrants org kws env w) = Thrown (DecodeError m)).
Proof.
  unfold Fetcher.findGrants, do_fetch, res_json. munfold. split; [| split].
  - intros m ->. reflexivity.
  - intros status rb -> ->. reflexivity.
  - intros status m -> ->. reflexivity.
Qed.

(** *** C5: the state after a failed search *)

(** C5: a search clears the grant list and the active draft before it sends
    anything, and when it fails, at the questionnaire step or at the
    grant-search step, the grant list is empty and there is no active
    draft. *)
Theorem C5_failed_search_leaves_nothing (s : State) (env : Env) (w : World State)
    (e : JsError) :
  search_failure env s = Some e ->
  (calls (snd (findGrants_begin env w)) = calls w /\
   grants (app (snd (findGrants_begin env w))) = [] /\
   draft (app (snd (findGrants_begin env w))) = None) /\
  grants (app (snd (findGrants s env w))) = [] /\
  draft (app (snd (findGrants s env w))) = None.
Proof.
  intros He. apply (findGrants_try_fails_iff s env w) in He.
  apply findGrants_failure in He.
  rewrite findGrants_begin_run. simpl. tauto.
Qed.

(** C5, witness: the page shows three grants and a draft; the grant search
    answers 503. *)
Lemma C5_failed_search_leaves_nothing_witness :
  search_failure Sample.search_down Sample.busy
    = Some (RequestFailed "API /find-grants failed (503)") /\
  grants (app (snd (run findGrants Sample.search_down Sample.busy))) = [] /\
  draft (app (snd (run findGrants Sample.search_down Sample.busy))) = None.
Proof.
  split; [vm_compute; reflexivity |].
  apply (C5_failed_search_leaves_nothing Sample.busy Sample.search_down
           (mkWorld Sample.busy [] []) (RequestFailed "API /find-grants failed (503)")).
  vm_compute. reflexivity.
Defined.

(** *** C6: a failed draft request *)

(** C6, counterexample: the network rejects the call with an empty message;
    the error line is then the generic text, not the message. *)
Lemma C6_empty_message_shows_generic_text :
  ~ draft_failure_shows_message (Sample.network_down "") Sample.busy Sample.stem_fund.
Proof.
  intros H. destruct (H (NetworkError "")) as [_ He].
  - reflexivity.
  - vm_compute in He. discriminate He.
Qed.

(** C6, amended: when a draft request fails with [e], the active draft is
    exactly what it was before (unset stays unset, an existing draft stays
    untouched), and the error line is the message of [e], or "Failed to
    create draft" when that message is empty. *)
Theorem C6_failed_draft_keeps_draft (s : State) (g : Grant) (env : Env)
    (w : World State) (e : JsError) :
  fst (createDraft_try s g env w) = Thrown e ->
  draft (app (snd (createDraft s g env w))) = draft (app w) /\
  error (app (snd (createDraft s g env w))) = str_or (message e) "Failed to create draft" /\
  (message e <> "" -> error (app (snd (createDraft s g env w))) = message e).
Proof.
  intros He. apply createDraft_failure in He.
  destruct He as (_ & Hd & _ & _ & Herr & _).
  split; [exact Hd |]. split; [exact Herr |].
  intros Hne. rewrite Herr. unfold str_or, truthy_str.
  destruct (String.eqb_spec (message e) ""); [contradiction | reflexivity].
Qed.

(** C6, witness: the backend answers 500 while the page holds a draft. *)
Lemma C6_failed_draft_keeps_draft_witness :
  fst (createDraft_try Sample.busy Sample.arts Sample.backend_500
         (mkWorld Sample.busy [] []))
    = Thrown (RequestFailed "API /draft failed (500)") /\
  draft (app (snd (run (fun s => createDraft s Sample.arts) Sample.backend_500 Sample.busy)))
    = Some (mkDraft (Some "d-1") "Dear committee" Sample.stem_fund) /\
  error (app (snd (run (fun s => createDraft s Sample.arts) Sample.backend_500 Sample.busy)))
    = "API /draft failed (500)".
Proof.
  assert (Hthrown :
    fst (createDraft_try Sample.busy Sample.arts Sample.backend_500
           (mkWorld Sample.busy [] []))
    = Thrown (RequestFailed "API /draft failed (500)")) by (vm_compute; reflexivity).
  destruct (C6_failed_draft_keeps_draft Sample.busy Sample.arts Sample.backend_500
              (mkWorld Sample.busy [] []) _ Hthrown) as (Hd & _ & He).
  split; [exact Hthrown |]. split; [exact Hd |].
  apply He. discriminate.
Defined.

(** *** C7: creating a draft *)

(** C7: for every grant [g], a draft request sends the draft call, with the
    intake reference of the page as it is, [null] included, and with
    "https://example.com" in place of a missing url; when the call is
    answered, the active draft carries exactly [g], the preview, and the id
    found under [draft_id], else under [id]. *)
Theorem C7_create_draft_attaches_grant (s : State) (g : Grant) (env : Env)
    (w : World State) :
  calls (snd (createDraft s g env w)) =
    (calls w ++
     [mkRequest (Config.API_BASE env +:+ "/draft") "POST" "application/json"
        (DraftBody (intakeId s) (str_or (org s) "Your Organization")
           (mkGrantRef (g_id g) (g_title g) (g_agency g)
                       (or_lit (g_url g) "https://example.com")))])%list /\
  (g_url g = None -> gr_url (mkGrantRef (g_id g) (g_title g) (g_agency g)
                       (or_lit (g_url g) "https://example.com")) = "https://example.com") /\
  (forall d, responds env (draft_request env s g) (JObject d) ->
     exists dr,
       draft (app (snd (createDraft s g env w))) = Some dr /\
       d_grant dr = g /\
       d_id dr = (if truthy (r_draft_id d) then r_draft_id d else r_id d) /\
       d_preview dr = or_lit (r_preview d) "").
Proof.
  split; [| split].
  - rewrite createDraft_calls. reflexivity.
  - intros ->. reflexivity.
  - intros d Hd. rewrite (createDraft_success s g env w d Hd). simpl.
    eexists. split; [reflexivity |]. simpl. repeat split.
Qed.

(** C7, witness: the scenario of the specification, a draft for
    [{id: "g1", title: "STEM Fund"}] with no intake reference. *)
Lemma C7_create_draft_attaches_grant_witness :
  calls (snd (run (fun s => createDraft s Sample.stem_fund) Sample.backend_ok Sample.acme)) =
    [mkRequest "https://grantforgeusa-v11-backend.onrender.com/draft" "POST"
       "application/json"
       (DraftBody None "Acme"
          (mkGrantRef (Some "g1") (Some "STEM Fund") None "https://example.com"))] /\
  exists dr,
    draft (app (snd (run (fun s => createDraft s Sample.stem_fund)
                         Sample.backend_ok Sample.acme))) = Some dr /\
    d_grant dr = Sample.stem_fund /\
    d_id dr = Some "d-0123456789" /\
    d_preview dr = "".
Proof.
  destruct (C7_create_draft_attaches_grant Sample.acme Sample.stem_fund
              Sample.backend_ok (mkWorld Sample.acme [] [])) as (Hc & Hu & Hd).
  specialize (Hu eq_refl).
  split; [exact Hc |].
  apply (Hd (mkResp (Some "in-7") None (Some Sample.three_grants) None
                    (Some Sample.three_grants) (Some "d-0123456789") None)).
  exists 200%nat. split; reflexivity.
Defined.

(** *** C8: the paid markers *)

Lemma findGrants_try_paid (s : State) (env : Env) (w : World State) :
  paidDraftIds (app (snd (findGrants_try s env w))) = paidDraftIds (app w).
Proof.
  unfold findGrants_try, prop. munfold. rewrite api_run.
  destruct (api_outcome env "/questionnaire" _) as [[| q] | e1]; simpl;
    try reflexivity.
  rewrite api_run.
  destruct (api_outcome env "/find-grants" _) as [[| g] | e2]; reflexivity.
Qed.

(** Neither a search nor a draft request touches the paid markers. *)
Lemma findGrants_paid (s : State) (env : Env) (w : World State) :
  paidDraftIds (app (snd (findGrants s env w))) = paidDraftIds (app w).
Proof.
  unfold findGrants. munfold. rewrite findGrants_begin_run.
  unfold try_catch_finally.
  match goal with |- context [findGrants_try s env ?w0] =>
    pose proof (findGrants_try_paid s env w0) as Hp;
    destruct (findGrants_try s env w0) as [[[]| e] w1]
  end; simpl in *; exact Hp.
Qed.

Lemma createDraft_paid (s : State) (g : Grant) (env : Env) (w : World State) :
  paidDraftIds (app (snd (createDraft s g env w))) = paidDraftIds (app w).
Proof.
  unfold createDraft. munfold. rewrite createDraft_begin_run.
  unfold try_catch_finally, createDraft_try, prop. munfold. rewrite api_run.
  destruct (api_outcome env "/draft" _) as [[| d] | e1]; reflexivity.
Qed.

(** No action of the page removes a paid marker. *)
Lemma step_keeps_paid (s : State) (ea : Env * Action) :
  paidDraftIds s ⊆ paidDraftIds (step s ea).
Proof.
  destruct ea as [env a]. unfold step, run. simpl.
  destruct a; simpl; try reflexivity.
  - rewrite findGrants_paid. reflexivity.
  - rewrite createDraft_paid. reflexivity.
  - unfold confirmPay. setters. munfold.
    destruct (payFor s) as [p |]; simpl; [| reflexivity].
    destruct (truthy_str (pf_id p)); simpl; [| reflexivity].
    set_solver.
Qed.

Lemma session_keeps_paid (l : list (Env * Action)) (s : State) :
  paidDraftIds s ⊆ paidDraftIds (session s l).
Proof.
  revert s. induction l as [| ea l IH]; intros s; simpl.
  - reflexivity.
  - transitivity (paidDraftIds (step s ea)).
    + apply step_keeps_paid.
    + apply IH.
Qed.

(** C8: marking paid a target that has neither an id nor an embedded grant
    id records the sentinel "unknown" among the paid markers; and an
    identifier that is among the paid markers is still there after any
    further actions of the session. *)
Theorem C8_unknown_marker_and_no_removal :
  (forall (env : Env) (t : PayTarget) (s : State),
     target_id t = None -> target_grant_id t = None ->
     "unknown" ∈ paidDraftIds (markPaid env t s)) /\
  (forall (l : list (Env * Action)) (s : State) (id : string),
     id ∈ paidDraftIds s -> id ∈ paidDraftIds (session s l)).
Proof.
  split.
  - intros env t s Hid Hgid.
    unfold markPaid, session, step, run. simpl.
    unfold openPay, confirmPay. rewrite Hid, Hgid. setters. munfold. simpl.
    set_solver.
  - intros l s id Hin. apply (session_keeps_paid l s). exact Hin.
Qed.

(** C8, witness: a grant without id is marked paid on a fresh page; the
    marker "unknown" survives a later search, a draft request and the
    marking of another grant. *)
Lemma C8_unknown_marker_and_no_removal_witness :
  "unknown" ∈ paidDraftIds
    (session
       (markPaid Sample.backend_ok
          (OnGrant (mkGrant None (Some "Untitled") None None None None None)) initial)
       [(Sample.backend_ok, ClickFindGrants);
        (Sample.backend_500, ClickDraft Sample.stem_fund);
        (Sample.backend_ok, ClickPayment (OnGrant Sample.arts));
        (Sample.backend_ok, ClickMarkAsPaid)]).
Proof.
  destruct C8_unknown_marker_and_no_removal as [Hadd Hkeep].
  apply Hkeep. apply Hadd; reflexivity.
Defined.

(** *** C9: exporting the active draft *)

Lemma str_or_truthy (s d : string) : s <> "" -> str_or s d = s.
Proof.
  intros Hs. unfold str_or, truthy_str.
  destruct (String.eqb_spec s ""); [contradiction | reflexivity].
Qed.

Lemma or_lit_nonempty (x : option string) (d : string) : d <> "" -> or_lit x d <> "".
Proof.
  intros Hd. destruct x as [s |]; simpl; [apply str_or_nonempty |]; exact Hd.
Qed.

(** The placeholder letter contains the organization name and the title it
    is built from. *)
Lemma placeholder_contains (orgName title : string) :
  occurs_in orgName (placeholder orgName title) /\
  occurs_in title (placeholder orgName title).
Proof.
  unfold placeholder. split.
  - exists ("Dear Review Committee," +:+ nl +:+ nl +:+
            "This is a generated placeholder draft for ").
    eexists. rewrite !append_assoc. reflexivity.
  - exists ("Dear Review Committee," +:+ nl +:+ nl +:+
            "This is a generated placeholder draft for " +:+ orgName +:+
            " applying to: ").
    eexists. rewrite !append_assoc. reflexivity.
Qed.

(** C9, counterexample: the server has answered a draft request with an
    empty draft id; the exported file is named after "doc", not after the
    (empty) first characters of the id. *)
Lemma C9_empty_id_exports_as_doc :
  ~ export_as_worded
      (mkState "Acme" "stem" None [] (Some (mkDraft (Some "") "" Sample.stem_fund))
               false "" None ∅).
Proof.
  intros H. simpl in H.
  destruct (H eq_refl "STEM Fund" "" eq_refl eq_refl) as (e & He & _ & _ & _ & Hf).
  vm_compute in He. injection He as <-.
  vm_compute in Hf. discriminate Hf.
Qed.

(** C9, amended: without active draft an export does nothing.  With an
    active draft whose preview is empty, the body is the placeholder letter
    built from the organization name ("Your Organization" when it is empty)
    and the grant title ("Grant Opportunity" when it is missing or empty),
    both of which it contains verbatim; the file name is "GFUSA_", the first
    40 characters of that title with every run of white space collapsed to
    one underscore, "_", the first 8 characters of the draft id ("doc" when
    the id is missing or empty), ".pdf". *)
Theorem C9_export_active_draft (s : State) :
  (draft s = None -> exportPDF s = None) /\
  (forall d, draft s = Some d -> d_preview d = "" ->
     exportPDF s =
       Some (mkExport
               (placeholder (str_or (org s) "Your Organization")
                            (or_lit (g_title (d_grant d)) "Grant Opportunity"))
               ("GFUSA_" +:+
                replace_ws (slice0 40 (or_lit (g_title (d_grant d)) "Grant Opportunity")) +:+
                "_" +:+ slice0 8 (or_lit (d_id d) "doc") +:+ ".pdf")) /\
     occurs_in (str_or (org s) "Your Organization")
       (placeholder (str_or (org s) "Your Organization")
                    (or_lit (g_title (d_grant d)) "Grant Opportunity")) /\
     occurs_in (or_lit (g_title (d_grant d)) "Grant Opportunity")
       (placeholder (str_or (org s) "Your Organization")
                    (or_lit (g_title (d_grant d)) "Grant Opportunity"))).
Proof.
  split.
  - intros Hd. unfold exportPDF. rewrite Hd. reflexivity.
  - intros d Hd Hp. split; [| apply placeholder_contains].
    unfold exportPDF, export_filename. rewrite Hd, Hp.
    rewrite (str_or_truthy (or_lit (g_title (d_grant d)) "Grant Opportunity") "draft")
      by (apply or_lit_nonempty; discriminate).
    reflexivity.
Qed.

(** C9, witness: a page without draft, and the draft "d-0123456789" of the
    grant "STEM  Fund for Schools" (two spaces) on the form of "Acme". *)
Lemma C9_export_active_draft_witness :
  exportPDF Sample.acme = None /\
  exportPDF (mkState "Acme" "" None []
               (Some (mkDraft (Some "d-0123456789") ""
                        (mkGrant (Some "g1") (Some "STEM  Fund for Schools")
                                 None None None None None)))
               false "" None ∅)
  = Some (mkExport
            (placeholder "Acme" "STEM  Fund for Schools")
            "GFUSA_STEM_Fund_for_Schools_d-012345.pdf").
Proof.
  split.
  - apply (C9_export_active_draft Sample.acme). reflexivity.
  - apply (proj2 (C9_export_active_draft
             (mkState "Acme" "" None []
                (Some (mkDraft (Some "d-0123456789") ""
                         (mkGrant (Some "g1") (Some "STEM  Fund for Schools")
                                  None None None None None)))
                false "" None ∅))
             (mkDraft (Some "d-0123456789") ""
                (mkGrant (Some "g1") (Some "STEM  Fund for Schools")
                         None None None None None))); reflexivity.
Defined.

(** *** C10: the loading flag *)

(** C10: a search and a draft request raise the loading flag before the
    [try], and every run of either, whatever the network does (a body that
    does not decode included), runs to its end and leaves the flag down. *)
Theorem C10_loading_flag_reset (s : State) (g : Grant) (env : Env) (w : World State) :
  (loading (app (snd (findGrants_begin env w))) = true /\
   fst (findGrants s env w) = Returned tt /\
   loading (app (snd (findGrants s env w))) = false) /\
  (loading (app (snd (createDraft_begin env w))) = true /\
   fst (createDraft s g env w) = Returned tt /\
   loading (app (snd (createDraft s g env w))) = false).
Proof.
  split; (split; [reflexivity |]).
  - apply findGrants_completes.
  - apply createDraft_completes.
Qed.

(** ** Further properties of the code *)

(** *** Strings: [slice] and [replace] *)

Lemma length_append (a b : string) :
  String.length (a +:+ b) = (String.length a + String.length b)%nat.
Proof.
  induction a as [| c a IH]; [reflexivity |].
  change (S (String.length (a +:+ b)) = S (String.length a + String.length b)).
  rewrite IH. reflexivity.
Qed.

Lemma slice0_length (n : nat) (s : string) :
  String.length (slice0 n s) = Nat.min n (String.length s).
Proof.
  revert s. induction n as [| n IH]; intros s; [reflexivity |].
  destruct s as [| c r]; [reflexivity |]. simpl. rewrite IH. reflexivity.
Qed.

Lemma slice0_rest (n : nat) (s : string) : exists rest, s = slice0 n s +:+ rest.
Proof.
  revert s. induction n as [| n IH]; intros s.
  - exists s. destruct s; reflexivity.
  - destruct s as [| c r]; [exists ""; reflexivity |].
    destruct (IH r) as [rest Hrest]. exists rest. simpl.
    change (String c r = String c (slice0 n r +:+ rest)).
    rewrite <- Hrest. reflexivity.
Qed.

(** X1: [s.slice(0, n)] is a prefix of [s], of length [min n (length s)]:
    a string shorter than [n] comes back whole, nothing is padded. *)
Theorem X1_slice0_prefix (n : nat) (s : string) :
  String.length (slice0 n s) = Nat.min n (String.length s) /\
  exists rest, s = slice0 n s +:+ rest.
Proof. split; [apply slice0_length | apply slice0_rest]. Qed.

Lemma replace_ws_from_chars (b : bool) (s : string) (c : ascii) :
  c ∈ chars (replace_ws_from b s) -> is_space c = false.
Proof.
  revert b. induction s as [| a r IH]; intros b; simpl.
  - unfold chars. simpl. intros H. inversion H.
  - destruct (is_space a) eqn:Ha.
    + destruct b.
      * apply IH.
      * unfold chars. simpl. intros H. apply elem_of_cons in H as [-> | H].
        -- reflexivity.
        -- exact (IH true H).
    + unfold chars. simpl. intros H. apply elem_of_cons in H as [-> | H].
      * exact Ha.
      * exact (IH false H).
Qed.

Lemma replace_ws_from_length (b : bool) (s : string) :
  (String.length (replace_ws_from b s) <= String.length s)%nat.
Proof.
  revert b. induction s as [| a r IH]; intros b; simpl; [lia |].
  destruct (is_space a).
  - destruct b; simpl.
    + specialize (IH true). lia.
    + specialize (IH true). lia.
  - simpl. specialize (IH false). lia.
Qed.

(** X2: [s.replace(/\s+/g, "_")] leaves no white space behind and never
    lengthens the string. *)
Theorem X2_replace_ws_no_space (s : string) :
  (forall c, c ∈ chars (replace_ws s) -> is_space c = false) /\
  (String.length (replace_ws s) <= String.length s)%nat.
Proof.
  split.
  - intros c. apply replace_ws_from_chars.
  - apply replace_ws_from_length.
Qed.

Lemma replace_ws_from_id (b : bool) (s : string) :
  (forall c, c ∈ chars s -> is_space c = false) -> replace_ws_from b s = s.
Proof.
  revert b. induction s as [| a r IH]; intros b H; simpl; [reflexivity |].
  rewrite (H a) by (unfold chars; simpl; apply elem_of_cons; left; reflexivity).
  rewrite (IH false); [reflexivity |].
  intros c Hc. apply H. unfold chars in *. simpl. apply elem_of_cons. right. exact Hc.
Qed.

(** X3: the replacement is idempotent: a title that went through it once
    is left alone by a second pass. *)
Theorem X3_replace_ws_idempotent (s : string) :
  replace_ws (replace_ws s) = replace_ws s.
Proof.
  unfold replace_ws at 1. apply replace_ws_from_id.
  intros c. apply replace_ws_from_chars.
Qed.

(** X4: the name of an exported file is "GFUSA_", a title part, "_", an id
    part and ".pdf"; the title part has at most 40 characters, none of them
    white space, the id part at most 8, so the whole name has at most 59
    characters, however long the title and the id are. *)
Theorem X4_export_filename_shape (title : string) (id : option string) :
  exists tpart ipart,
    export_filename title id = "GFUSA_" +:+ tpart +:+ "_" +:+ ipart +:+ ".pdf" /\
    (String.length tpart <= 40)%nat /\
    (forall c, c ∈ chars tpart -> is_space c = false) /\
    (String.length ipart <= 8)%nat /\
    (String.length (export_filename title id) <= 59)%nat.
Proof.
  exists (replace_ws (slice0 40 (str_or title "draft"))), (slice0 8 (or_lit id "doc")).
  assert (Ht : (String.length (replace_ws (slice0 40 (str_or title "draft"))) <= 40)%nat).
  { pose proof (replace_ws_from_length false (slice0 40 (str_or title "draft"))) as H1.
    pose proof (slice0_length 40 (str_or title "draft")) as H2.
    unfold replace_ws. lia. }
  assert (Hi : (String.length (slice0 8 (or_lit id "doc")) <= 8)%nat).
  { pose proof (slice0_length 8 (or_lit id "doc")). lia. }
  split; [reflexivity |]. split; [exact Ht |].
  split; [intros c; apply replace_ws_from_chars |].
  split; [exact Hi |].
  unfold export_filename.
  set (tpart := replace_ws (slice0 40 (str_or title "draft"))) in *.
  set (ipart := slice0 8 (or_lit id "doc")) in *.
  rewrite !length_append.
  change (String.length "GFUSA_") with 6%nat.
  change (String.length "_") with 1%nat.
  change (String.length ".pdf") with 4%nat.
  lia.
Qed.

(** *** The minimal client's search *)

Lemma fetcher_run {St} (org kws : string) (env : Env) (w : World St) :
  Fetcher.findGrants org kws env w =
  (shortlist_outcome env org kws, sent w (Fetcher.request env org kws)).
Proof.
  unfold Fetcher.findGrants, shortlist_outcome, do_fetch, res_json, sent. munfold.
  destruct (fetch env (Fetcher.request env org kws)) as [m | status rb]; [reflexivity |].
  destruct (ok status); [| reflexivity].
  destruct rb; reflexivity.
Qed.

Ltac mini_unfold :=
  unfold MiniApp.handleFind, try_catch, try_catch_finally, prop,
    MiniApp.setStatus, MiniApp.setResults, console_error, set;
  munfold; simpl; rewrite fetcher_run.

(** X5: whenever the minimal client's search does not get a JSON object
    back (the network is down, the status is not a success, the body does
    not decode or is [null]), the result list is empty, the status line is
    the fixed text "Error: Failed to fetch", whatever the error says, and
    the error itself goes to the console. *)
Theorem X5_handleFind_failure (s : MiniApp.State) (env : Env) (w : World MiniApp.State) :
  (forall d, shortlist_outcome env (str_or (MiniApp.org s) "Your Organization")
                                   (str_or (MiniApp.kw s) "community")
             <> Returned (JObject d)) ->
  MiniApp.results (app (snd (MiniApp.handleFind s env w))) = [] /\
  MiniApp.status (app (snd (MiniApp.handleFind s env w))) = "Error: Failed to fetch" /\
  exists e, console (snd (MiniApp.handleFind s env w)) = (console w ++ [e])%list.
Proof.
  intros Hfail. mini_unfold.
  destruct (shortlist_outcome env _ _) as [[| d] | e]; simpl.
  - repeat split. eexists. reflexivity.
  - destruct (Hfail d). reflexivity.
  - repeat split. eexists. reflexivity.
Qed.

(** X5, witness: the backend answers 500 and a page of HTML. *)
Lemma X5_handleFind_failure_witness :
  MiniApp.results (app (snd (MiniApp.handleFind (MiniApp.mkState "Acme" "stem" "" [Sample.arts])
     Sample.backend_500 (mkWorld (MiniApp.mkState "Acme" "stem" "" [Sample.arts]) [] [])))) = [] /\
  MiniApp.status (app (snd (MiniApp.handleFind (MiniApp.mkState "Acme" "stem" "" [Sample.arts])
     Sample.backend_500 (mkWorld (MiniApp.mkState "Acme" "stem" "" [Sample.arts]) [] []))))
    = "Error: Failed to fetch".
Proof.
  destruct (X5_handleFind_failure (MiniApp.mkState "Acme" "stem" "" [Sample.arts])
              Sample.backend_500
              (mkWorld (MiniApp.mkState "Acme" "stem" "" [Sample.arts]) [] []))
    as (Hr & Hs & _).
  - intros d. vm_compute. discriminate.
  - split; [exact Hr | exact Hs].
Defined.

(** X6: an answer of the minimal client's search that is a JSON object
    without a [results] list counts as a successful search with no hit: the
    result list is empty, the status line reads "Found 0 item(s)", and
    nothing goes to the console. *)
Theorem X6_handleFind_missing_results (s : MiniApp.State) (env : Env)
    (w : World MiniApp.State) (d : RespFields) :
  shortlist_outcome env (str_or (MiniApp.org s) "Your Organization")
                        (str_or (MiniApp.kw s) "community") = Returned (JObject d) ->
  r_results d = None ->
  MiniApp.results (app (snd (MiniApp.handleFind s env w))) = [] /\
  MiniApp.status (app (snd (MiniApp.handleFind s env w))) = "Found 0 item(s)" /\
  console (snd (MiniApp.handleFind s env w)) = console w.
Proof.
  intros Hd Hr. mini_unfold. rewrite Hd. simpl. rewrite Hr. repeat split.
Qed.

(** X6, witness: the backend answers 200 with [{id: "in-7"}]. *)
Lemma X6_handleFind_missing_results_witness :
  MiniApp.results (app (snd (MiniApp.handleFind (MiniApp.mkState "" "" "" [Sample.arts])
     Sample.search_down (mkWorld (MiniApp.mkState "" "" "" [Sample.arts]) [] [])))) = [] /\
  MiniApp.status (app (snd (MiniApp.handleFind (MiniApp.mkState "" "" "" [Sample.arts])
     Sample.search_down (mkWorld (MiniApp.mkState "" "" "" [Sample.arts]) [] []))))
    = "Found 0 item(s)".
Proof.
  destruct (X6_handleFind_missing_results (MiniApp.mkState "" "" "" [Sample.arts])
              Sample.search_down
              (mkWorld (MiniApp.mkState "" "" "" [Sample.arts]) [] [])
              (mkResp (Some "in-7") None None None None None None))
    as (Hr & Hs & _).
  - vm_compute. reflexivity.
  - reflexivity.
  - split; [exact Hr | exact Hs].
Defined.

(** X7: every run of the minimal client's search sends exactly one request,
    a POST of JSON to the questionnaire endpoint under the configured base,
    and neither the organization nor the keywords it carries is empty. *)
Theorem X7_handleFind_single_request (s : MiniApp.State) (env : Env)
    (w : World MiniApp.State) :
  exists o k,
    calls (snd (MiniApp.handleFind s env w)) =
      (calls w ++ [mkRequest (Config.API_BASE env +:+ "/questionnaire") "POST"
                             "application/json" (ShortlistBody o k)])%list /\
    o <> "" /\ k <> "".
Proof.
  exists (str_or (MiniApp.org s) "Your Organization"), (str_or (MiniApp.kw s) "community").
  split; [apply handleFind_calls |].
  split; apply str_or_nonempty; discriminate.
Qed.

(** *** The full client: what a search and a draft request come to *)

(** The state a search ends in: the page as it was, with the given intake
    reference, grant list and error line, no draft and the flag down. *)
Lemma findGrants_run (s : State) (env : Env) (w : World State) :
  findGrants s env w =
  (Returned tt,
   let ended iid gs err :=
     mkState (org (app w)) (keywords (app w)) iid gs None false err
             (payFor (app w)) (paidDraftIds (app w)) in
   let failed iid e cs :=
     mkWorld (ended iid [] (str_or (message e) "Failed to fetch")) cs
             (console w ++ [e]) in
   let null := TypeError "Cannot read properties of null" in
   let c1 := (calls w ++ [questionnaire_request env s])%list in
   let c2 := (c1 ++ [find_grants_request env s])%list in
   match api_outcome env "/questionnaire"
           (Some (QuestionnaireBody (str_or (org s) "Your Organization")
                                    (str_or (keywords s) "grants"))) with
   | Thrown e => failed (intakeId (app w)) e c1
   | Returned JNull => failed (intakeId (app w)) null c1
   | Returned (JObject q) =>
       let iid := or_null (or_else (r_id q) (r_intake_id q)) in
       match api_outcome env "/find-grants" (Some (FindGrantsBody (keywords s))) with
       | Thrown e => failed iid e c2
       | Returned JNull => failed iid null c2
       | Returned (JObject g) =>
           mkWorld (ended iid (arr_or (r_top g) (r_items g)) "") c2 (console w)
       end
   end).
Proof.
  unfold findGrants. munfold. rewrite findGrants_begin_run.
  unfold try_catch_finally, findGrants_try, prop. munfold.
  rewrite api_run.
  destruct (api_outcome env "/questionnaire" _) as [[| q] | e1]; try reflexivity.
  simpl. rewrite api_run.
  destruct (api_outcome env "/find-grants" _) as [[| g] | e2]; reflexivity.
Qed.

(** The state a draft request ends in. *)
Lemma createDraft_run (s : State) (g : Grant) (env : Env) (w : World State) :
  createDraft s g env w =
  (Returned tt,
   let ended dr err :=
     mkState (org (app w)) (keywords (app w)) (intakeId (app w)) (grants (app w))
             dr false err (payFor (app w)) (paidDraftIds (app w)) in
   let failed e :=
     mkWorld (ended (draft (app w)) (str_or (message e) "Failed to create draft"))
             (calls w ++ [draft_request env s g]) (console w ++ [e]) in
   match api_outcome env "/draft" (Some (draft_body s g)) with
   | Thrown e => failed e
   | Returned JNull => failed (TypeError "Cannot read properties of null")
   | Returned (JObject d) =>
       mkWorld (ended (Some (mkDraft (or_else (r_draft_id d) (r_id d))
                                     (or_lit (r_preview d) "") g)) "")
               (calls w ++ [draft_request env s g]) (console w)
   end).
Proof.
  unfold createDraft. munfold. rewrite createDraft_begin_run.
  unfold try_catch_finally, createDraft_try, prop. munfold.
  rewrite api_run.
  destruct (api_outcome env "/draft" _) as [[| d] | e1]; reflexivity.
Qed.

(** X8: a search sends its requests in order and never retries: first the
    questionnaire; then, only if that was answered with a JSON object, the
    grant search; nothing else. *)
Theorem X8_findGrants_requests (s : State) (env : Env) (w : World State) :
  calls (snd (findGrants s env w)) =
  (calls w ++
   questionnaire_request env s ::
   match api_outcome env "/questionnaire"
           (Some (QuestionnaireBody (str_or (org s) "Your Organization")
                                    (str_or (keywords s) "grants"))) with
   | Returned (JObject _) => [find_grants_request env s]
   | _ => []
   end)%list.
Proof.
  rewrite findGrants_run. simpl.
  destruct (api_outcome env "/questionnaire" _) as [[| q] | e1]; try reflexivity.
  destruct (api_outcome env "/find-grants" _) as [[| g] | e2]; simpl;
    rewrite <- app_assoc; reflexivity.
Qed.

(** X9: when the questionnaire step of a search fails, the intake
    reference of an earlier search stays in place: the failure does not
    reset it. *)
Theorem X9_failed_questionnaire_keeps_intake (s : State) (env : Env) (w : World State) :
  (forall q, api_outcome env "/questionnaire"
               (Some (QuestionnaireBody (str_or (org s) "Your Organization")
                                        (str_or (keywords s) "grants")))
             <> Returned (JObject q)) ->
  intakeId (app (snd (findGrants s env w))) = intakeId (app w).
Proof.
  intros Hfail. rewrite findGrants_run. simpl.
  destruct (api_outcome env "/questionnaire" _) as [[| q] | e1]; try reflexivity.
  destruct (Hfail q). reflexivity.
Qed.

(** X9, witness: the page holds intake reference "in-1"; the network is
    down. *)
Lemma X9_failed_questionnaire_keeps_intake_witness :
  intakeId (app (snd (run findGrants (Sample.network_down "Failed to fetch") Sample.busy)))
  = Some "in-1".
Proof.
  apply (X9_failed_questionnaire_keeps_intake Sample.busy
           (Sample.network_down "Failed to fetch") (mkWorld Sample.busy [] [])).
  intros q. vm_compute. discriminate.
Defined.

Lemma or_null_not_empty (x : option string) : or_null x <> Some "".
Proof.
  unfold or_null. destruct x as [v |]; simpl; [| discriminate].
  unfold truthy_str. destruct (String.eqb_spec v ""); simpl; congruence.
Qed.

Lemma step_intake_not_empty (s : State) (ea : Env * Action) :
  intakeId s <> Some "" -> intakeId (step s ea) <> Some "".
Proof.
  destruct ea as [env a]. unfold step, run. simpl. intros Hs.
  destruct a; simpl; try exact Hs.
  - rewrite findGrants_run. simpl.
    destruct (api_outcome env "/questionnaire" _) as [[| q] | e1]; try exact Hs.
    destruct (api_outcome env "/find-grants" _) as [[| g] | e2]; simpl;
      apply or_null_not_empty.
  - rewrite createDraft_run. simpl.
    destruct (api_outcome env "/draft" _) as [[| d] | e1]; exact Hs.
  - unfold confirmPay. setters. munfold.
    destruct (payFor s) as [p |]; simpl; [| exact Hs].
    destruct (truthy_str (pf_id p)); exact Hs.
Qed.

(** X10: the intake reference is never the empty string.  On the first page
    it is [null]; whatever the user does and whatever the backend answers,
    it stays [null] or a non-empty string, so a draft request never carries
    an empty [intake_id]. *)
Theorem X10_intake_never_empty (l : list (Env * Action)) :
  intakeId (session initial l) <> Some "".
Proof.
  unfold session.
  assert (H : forall s, intakeId s <> Some "" -> intakeId (fold_left step l s) <> Some "").
  { induction l as [| ea l IH]; intros s Hs; simpl; [exact Hs |].
    apply IH. apply step_intake_not_empty. exact Hs. }
  apply H. discriminate.
Qed.

Lemma outcome_responds (env : Env) (path : string) (body : option Body) (v : Json) :
  api_outcome env path body = Returned v ->
  responds env (api_request env path body) v.
Proof.
  unfold api_outcome, responds.
  destruct (fetch env (api_request env path body)) as [m | status rb]; [discriminate |].
  destruct (ok status) eqn:Hok; [| discriminate].
  destruct rb as [m | v']; [discriminate |].
  intros [= ->]. exists status. split; [reflexivity | exact Hok].
Qed.

(** X11: after a search the error line is empty exactly when the search
    succeeded: every failure, an empty message included, puts a non-empty
    text on the line, and a success clears it. *)
Theorem X11_search_error_iff_failure (s : State) (env : Env) (w : World State) :
  error (app (snd (findGrants s env w))) = "" <-> search_failure env s = None.
Proof.
  rewrite findGrants_run. unfold search_failure. simpl.
  destruct (api_outcome env "/questionnaire" _) as [[| q] | e1]; simpl.
  - split; discriminate.
  - destruct (api_outcome env "/find-grants" _) as [[| g] | e2]; simpl.
    + split; discriminate.
    + split; reflexivity.
    + split; [| discriminate].
      intros H. destruct (str_or_nonempty (message e2) "Failed to fetch"); [discriminate | exact H].
  - split; [| discriminate].
    intros H. destruct (str_or_nonempty (message e1) "Failed to fetch"); [discriminate | exact H].
Qed.

(** X12: a search touches neither the form, nor the payment modal, nor the
    paid markers, and it always ends without active draft, so that an export
    right after any search, failed or not, does nothing. *)
Theorem X12_search_frame (s : State) (env : Env) (w : World State) :
  org (app (snd (findGrants s env w))) = org (app w) /\
  keywords (app (snd (findGrants s env w))) = keywords (app w) /\
  payFor (app (snd (findGrants s env w))) = payFor (app w) /\
  paidDraftIds (app (snd (findGrants s env w))) = paidDraftIds (app w) /\
  draft (app (snd (findGrants s env w))) = None /\
  exportPDF (app (snd (findGrants s env w))) = None.
Proof.
  rewrite findGrants_run. unfold exportPDF. simpl.
  destruct (api_outcome env "/questionnaire" _) as [[| q] | e1]; simpl;
    try (repeat split; reflexivity).
  destruct (api_outcome env "/find-grants" _) as [[| g] | e2]; simpl;
    repeat split; reflexivity.
Qed.

(** X13: a failed draft request changes nothing on the page but the error
    line (and the loading flag, which ends down): the form, the intake
    reference, the grant list, the active draft, the modal and the paid
    markers are as before, and an export gives what it gave before. *)
Theorem X13_failed_draft_frame (s : State) (g : Grant) (env : Env)
    (w : World State) (e : JsError) :
  fst (createDraft_try s g env w) = Thrown e ->
  app (snd (createDraft s g env w)) =
    mkState (org (app w)) (keywords (app w)) (intakeId (app w)) (grants (app w))
            (draft (app w)) false (str_or (message e) "Failed to create draft")
            (payFor (app w)) (paidDraftIds (app w)) /\
  exportPDF (app (snd (createDraft s g env w))) = exportPDF (app w).
Proof.
  unfold createDraft_try, prop. munfold. rewrite api_run, createDraft_run.
  unfold exportPDF. simpl.
  destruct (api_outcome env "/draft" _) as [[| d] | e1]; simpl;
    intros [= <-]; split; reflexivity.
Qed.

(** X13, witness: the backend answers 500 while the page holds a draft. *)
Lemma X13_failed_draft_frame_witness :
  app (snd (run (fun s => createDraft s Sample.arts) Sample.backend_500 Sample.busy)) =
    mkState "Acme" "stem" (Some "in-1") Sample.three_grants
            (Some (mkDraft (Some "d-1") "Dear committee" Sample.stem_fund))
            false "API /draft failed (500)" None ∅ /\
  exportPDF (app (snd (run (fun s => createDraft s Sample.arts) Sample.backend_500 Sample.busy)))
    = exportPDF Sample.busy.
Proof.
  apply (X13_failed_draft_frame Sample.busy Sample.arts Sample.backend_500
           (mkWorld Sample.busy [] []) (RequestFailed "API /draft failed (500)")).
  vm_compute. reflexivity.
Defined.

(** X14: after a draft request the error line is empty exactly when the
    request succeeded. *)
Theorem X14_draft_error_iff_failure (s : State) (g : Grant) (env : Env) (w : World State) :
  error (app (snd (createDraft s g env w))) = "" <->
  fst (createDraft_try s g env w) = Returned tt.
Proof.
  unfold createDraft_try, prop. munfold. rewrite api_run, createDraft_run. simpl.
  destruct (api_outcome env "/draft" _) as [[| d] | e1]; simpl.
  - split; discriminate.
  - split; reflexivity.
  - split; [| discriminate].
    intros H. destruct (str_or_nonempty (message e1) "Failed to create draft");
      [discriminate | exact H].
Qed.

(** X15: when a draft request is answered with a non-empty preview, an
    export of the resulting page prints exactly that preview, not the
    placeholder letter, under a file name built from the title of the grant
    the draft was asked for and the id the server gave. *)
Theorem X15_draft_then_export (s : State) (g : Grant) (env : Env) (w : World State)
    (d : RespFields) (p : string) :
  responds env (draft_request env s g) (JObject d) ->
  r_preview d = Some p -> p <> "" ->
  exportPDF (app (snd (createDraft s g env w))) =
    Some (mkExport p
            (export_filename (or_lit (g_title g) "Grant Opportunity")
                             (or_else (r_draft_id d) (r_id d)))).
Proof.
  intros Hd Hp Hne. rewrite (createDraft_success s g env w d Hd).
  unfold exportPDF. simpl. rewrite Hp. simpl.
  rewrite !(str_or_truthy p) by exact Hne. reflexivity.
Qed.

(** X15, witness: the server answers the draft request for "STEM Fund"
    with id "d-0123456789" and a preview. *)
Lemma X15_draft_then_export_witness :
  exportPDF (app (snd (run (fun s => createDraft s Sample.stem_fund)
     (mkEnv None (fun _ => Resolves 201 (IsJson (JObject
        (mkResp None None None None None (Some "d-0123456789") (Some "Dear panel"))))))
     Sample.acme)))
  = Some (mkExport "Dear panel" "GFUSA_STEM_Fund_d-012345.pdf").
Proof.
  apply (X15_draft_then_export Sample.acme Sample.stem_fund
           (mkEnv None (fun _ => Resolves 201 (IsJson (JObject
              (mkResp None None None None None (Some "d-0123456789") (Some "Dear panel"))))))
           (mkWorld Sample.acme [] [])
           (mkResp None None None None None (Some "d-0123456789") (Some "Dear panel"))
           "Dear panel").
  - exists 201%nat. split; reflexivity.
  - reflexivity.
  - discriminate.
Defined.

(** X16: the intake reference a search obtains is the one the next draft
    request sends: when the questionnaire call of a search is answered with
    [q], a draft request made from the page the search left carries
    [q.id || q.intake_id || null] as its [intake_id], whether the grant
    search itself succeeded or not. *)
Theorem X16_search_then_draft_intake (s : State) (env env' : Env) (g : Grant)
    (q : RespFields) :
  responds env (questionnaire_request env s) (JObject q) ->
  calls (snd (run (fun s' => createDraft s' g) env'
                  (app (snd (run findGrants env s))))) =
  [mkRequest (Config.API_BASE env' +:+ "/draft") "POST" "application/json"
     (DraftBody (or_null (or_else (r_id q) (r_intake_id q)))
                (str_or (org s) "Your Organization")
                (mkGrantRef (g_id g) (g_title g) (g_agency g)
                            (or_lit (g_url g) "https://example.com")))].
Proof.
  intros Hq. unfold run at 1. rewrite createDraft_calls. simpl.
  unfold draft_request, draft_body, api_request. simpl.
  unfold run. rewrite (findGrants_intake s env _ q Hq).
  rewrite findGrants_run. simpl.
  destruct (api_outcome env "/questionnaire" _) as [[| q'] | e1]; simpl;
    try reflexivity.
  destruct (api_outcome env "/find-grants" _) as [[| g'] | e2]; reflexivity.
Qed.

(** X16, witness: the questionnaire is answered with "in-7", the grant
    search fails with 503, and a draft is then asked for "STEM Fund". *)
Lemma X16_search_then_draft_intake_witness :
  calls (snd (run (fun s' => createDraft s' Sample.stem_fund) Sample.backend_ok
                  (app (snd (run findGrants Sample.search_down Sample.acme))))) =
  [mkRequest "https://grantforgeusa-v11-backend.onrender.com/draft" "POST"
     "application/json"
     (DraftBody (Some "in-7") "Acme"
        (mkGrantRef (Some "g1") (Some "STEM Fund") None "https://example.com"))].
Proof.
  apply (X16_search_then_draft_intake Sample.acme Sample.search_down Sample.backend_ok
           Sample.stem_fund (mkResp (Some "in-7") None None None None None None)).
  exists 200%nat. split; reflexivity.
Defined.

(** X17: in the answer of the grant search, [top] wins over [items]
    whenever it is present, an empty [top] included: the page then shows no
    grant even if [items] holds some. *)
Theorem X17_top_shadows_items (s : State) (env : Env) (w : World State)
    (q g : RespFields) (l : list Grant) :
  responds env (questionnaire_request env s) (JObject q) ->
  responds env (find_grants_request env s) (JObject g) ->
  r_top g = Some l ->
  grants (app (snd (findGrants s env w))) = l.
Proof.
  intros Hq Hg Ht. rewrite (findGrants_success s env w q g Hq Hg). simpl.
  rewrite Ht. reflexivity.
Qed.

(** X17, witness: the answer is [{top: [], items: [arts]}]. *)
Lemma X17_top_shadows_items_witness :
  grants (app (snd (run findGrants
     (mkEnv None (fun _ => Resolves 200 (IsJson (JObject
        (mkResp None None (Some []) (Some [Sample.arts]) None None None)))))
     Sample.busy))) = [].
Proof.
  apply (X17_top_shadows_items Sample.busy
           (mkEnv None (fun _ => Resolves 200 (IsJson (JObject
              (mkResp None None (Some []) (Some [Sample.arts]) None None None)))))
           (mkWorld Sample.busy [] [])
           (mkResp None None (Some []) (Some [Sample.arts]) None None None)
           (mkResp None None (Some []) (Some [Sample.arts]) None None None) []).
  - exists 200%nat. split; reflexivity.
  - exists 200%nat. split; reflexivity.
  - reflexivity.
Defined.

(** *** The payment modal and the paid markers *)

Lemma resolved_id_truthy (t : PayTarget) : truthy_str (resolved_id t) = true.
Proof.
  pose proof (or_lit_nonempty (or_else (target_id t) (target_grant_id t)) "unknown") as H.
  unfold resolved_id, truthy_str.
  destruct (String.eqb_spec
              (or_lit (or_else (target_id t) (target_grant_id t)) "unknown") "")
    as [Heq | Hne]; [| reflexivity].
  destruct H; [discriminate | exact Heq].
Qed.

Lemma markPaid_run (env : Env) (t : PayTarget) (s : State) :
  markPaid env t s =
  mkState (org s) (keywords s) (intakeId s) (grants s) (draft s) (loading s) (error s)
          None (paidDraftIds s ∪ {[resolved_id t]}).
Proof.
  unfold markPaid, session, step, run. simpl.
  unfold openPay, confirmPay. setters. munfold. simpl.
  fold (resolved_id t). rewrite resolved_id_truthy. reflexivity.
Qed.

(** X18: marking a target paid always adds exactly one identifier, the
    target's own id if it has a non-empty one, else the id of its embedded
    grant, else "unknown"; it closes the modal and changes nothing else. *)
Theorem X18_markPaid_adds_resolved_id (env : Env) (t : PayTarget) (s : State) :
  markPaid env t s =
    mkState (org s) (keywords s) (intakeId s) (grants s) (draft s) (loading s) (error s)
            None (paidDraftIds s ∪ {[resolved_id t]}) /\
  resolved_id t =
    (if truthy (target_id t) then default "" (target_id t)
     else if truthy (target_grant_id t) then default "" (target_grant_id t)
     else "unknown").
Proof.
  split; [apply markPaid_run |].
  unfold resolved_id, or_else, or_lit, str_or.
  destruct (target_id t) as [i |]; simpl.
  - destruct (truthy_str i) eqn:Hi; simpl; [rewrite Hi; reflexivity |].
    destruct (target_grant_id t) as [j |]; simpl; [| reflexivity].
    destruct (truthy_str j); reflexivity.
  - destruct (target_grant_id t) as [j |]; simpl; [| reflexivity].
    destruct (truthy_str j); reflexivity.
Qed.

Lemma step_paid_not_empty (s : State) (ea : Env * Action) :
  "" ∉ paidDraftIds s -> "" ∉ paidDraftIds (step s ea).
Proof.
  destruct ea as [env a]. unfold step, run. simpl. intros Hs.
  destruct a; simpl; try exact Hs.
  - rewrite findGrants_paid. exact Hs.
  - rewrite createDraft_paid. exact Hs.
  - unfold confirmPay. setters. munfold.
    destruct (payFor s) as [p |]; simpl; [| exact Hs].
    destruct (truthy_str (pf_id p)) eqn:Hp; simpl; [| exact Hs].
    intros Hin. apply elem_of_union in Hin as [Hin | Hin]; [exact (Hs Hin) |].
    apply elem_of_singleton in Hin. rewrite <- Hin in Hp. discriminate Hp.
Qed.

(** X19: the empty string is never a paid marker: starting from the first
    page, whatever the user does, "Mark as Paid" records non-empty
    identifiers only, so a grant whose key is empty never shows as paid. *)
Theorem X19_empty_id_never_paid (l : list (Env * Action)) (g : Grant) :
  ("" ∉ paidDraftIds (session initial l)) /\
  (grant_key g = Some "" -> isPaid (session initial l) g = false).
Proof.
  assert (H : "" ∉ paidDraftIds (session initial l)).
  { unfold session.
    assert (Hgen : forall s, "" ∉ paidDraftIds s -> "" ∉ paidDraftIds (fold_left step l s)).
    { induction l as [| ea l IH]; intros s Hs; simpl; [exact Hs |].
      apply IH. apply step_paid_not_empty. exact Hs. }
    apply Hgen. simpl. set_solver. }
  split; [exact H |].
  intros Hk. unfold isPaid. rewrite Hk. apply bool_decide_eq_false. exact H.
Qed.

(** X19, witness: a grant whose id and title are both empty, after a
    session in which it was marked paid. *)
Lemma X19_empty_id_never_paid_witness :
  isPaid (session initial
            [(Sample.backend_ok,
              ClickPayment (OnGrant (mkGrant (Some "") (Some "") None None None None None)));
             (Sample.backend_ok, ClickMarkAsPaid)])
         (mkGrant (Some "") (Some "") None None None None None) = false.
Proof.
  apply (X19_empty_id_never_paid
           [(Sample.backend_ok,
             ClickPayment (OnGrant (mkGrant (Some "") (Some "") None None None None None)));
            (Sample.backend_ok, ClickMarkAsPaid)]
           (mkGrant (Some "") (Some "") None None None None None)).
  reflexivity.
Defined.

(** X20: a grant with a non-empty id that is marked paid shows the PAID
    tag, and keeps it through whatever the user does afterwards. *)
Theorem X20_paid_tag_shown (env : Env) (g : Grant) (s : State) (l : list (Env * Action)) :
  truthy (g_id g) = true ->
  isPaid (session (markPaid env (OnGrant g) s) l) g = true.
Proof.
  intros Hid. unfold isPaid, grant_key, or_else. rewrite Hid.
  destruct (g_id g) as [i |] eqn:Hg; [| discriminate Hid].
  apply bool_decide_eq_true.
  apply (session_keeps_paid l (markPaid env (OnGrant g) s)).
  rewrite markPaid_run. simpl.
  unfold resolved_id, or_else. simpl. rewrite Hg, Hid. simpl.
  unfold str_or. simpl in Hid. rewrite Hid. set_solver.
Qed.

(** X20, witness: "STEM Fund" (id "g1") is marked paid, then a search
    runs. *)
Lemma X20_paid_tag_shown_witness :
  isPaid (session (markPaid Sample.backend_ok (OnGrant Sample.stem_fund) initial)
            [(Sample.backend_ok, ClickFindGrants)])
         Sample.stem_fund = true.
Proof.
  apply (X20_paid_tag_shown Sample.backend_ok Sample.stem_fund initial
           [(Sample.backend_ok, ClickFindGrants)]).
  reflexivity.
Defined.

(** X21: the list keys a grant by [id || title], the modal resolves
    [id || grant?.id || "unknown"].  So marking paid a grant that has no id
    but a title records "unknown", not the title, and the PAID tag of that
    grant is what it was before (unless its title is "unknown"). *)
Theorem X21_untagged_without_id (env : Env) (g : Grant) (s : State) (title : string) :
  truthy (g_id g) = false ->
  g_title g = Some title -> title <> "unknown" ->
  paidDraftIds (markPaid env (OnGrant g) s) = paidDraftIds s ∪ {["unknown"]} /\
  isPaid (markPaid env (OnGrant g) s) g = isPaid s g.
Proof.
  intros Hid Ht Hne.
  assert (Hr : resolved_id (OnGrant g) = "unknown").
  { unfold resolved_id, or_else. simpl. rewrite Hid. reflexivity. }
  rewrite markPaid_run. simpl. rewrite Hr. split; [reflexivity |].
  unfold isPaid, grant_key, or_else. rewrite Hid, Ht. simpl.
  apply bool_decide_ext. rewrite elem_of_union, elem_of_singleton.
  split; [intros [H | H]; [exact H | contradiction] | intros H; left; exact H].
Qed.

(** X21, witness: a grant titled "Untitled" without id, on the first
    page. *)
Lemma X21_untagged_without_id_witness :
  isPaid (markPaid Sample.backend_ok
            (OnGrant (mkGrant None (Some "Untitled") None None None None None)) initial)
         (mkGrant None (Some "Untitled") None None None None None)
  = isPaid initial (mkGrant None (Some "Untitled") None None None None None).
Proof.
  apply (X21_untagged_without_id Sample.backend_ok
           (mkGrant None (Some "Untitled") None None None None None) initial "Untitled").
  - reflexivity.
  - reflexivity.
  - discriminate.
Defined.

(** X22: cancelling works: opening the payment modal and closing it leaves
    the paid markers as they were, and a "Mark as Paid" that arrives once
    the modal is closed adds nothing. *)
Theorem X22_cancel_adds_nothing (env : Env) (t : PayTarget) (s : State) :
  paidDraftIds (session s [(env, ClickPayment t); (env, CloseModal)]) = paidDraftIds s /\
  paidDraftIds (session s [(env, ClickPayment t); (env, CloseModal); (env, ClickMarkAsPaid)])
    = paidDraftIds s.
Proof. split; reflexivity. Qed.

(** X23: marking the same target paid twice is the same as marking it
    once. *)
Theorem X23_markPaid_idempotent (env env' : Env) (t : PayTarget) (s : State) :
  markPaid env' t (markPaid env t s) = markPaid env t s.
Proof.
  rewrite !markPaid_run. simpl. f_equal.
  apply set_eq. intros x. rewrite !elem_of_union. tauto.
Qed.

(** *** Invariants of a session *)

Lemma step_loading (s : State) (ea : Env * Action) :
  loading s = false -> loading (step s ea) = false.
Proof.
  destruct ea as [env a]. unfold step, run. simpl. intros Hs.
  destruct a; simpl; try exact Hs.
  - apply findGrants_completes.
  - apply createDraft_completes.
  - unfold confirmPay. setters. munfold.
    destruct (payFor s) as [p |]; simpl; [| exact Hs].
    destruct (truthy_str (pf_id p)); exact Hs.
Qed.

(** X24: between two actions the page is never loading: from the first
    page, whatever the user does and whatever the backend answers, every
    handler has lowered the flag by the time it ends, so the "Find Grants"
    button is never left disabled. *)
Theorem X24_never_stuck_loading (l : list (Env * Action)) :
  loading (session initial l) = false.
Proof.
  unfold session.
  assert (H : forall s, loading s = false -> loading (fold_left step l s) = false).
  { induction l as [| ea l IH]; intros s Hs; simpl; [exact Hs |].
    apply IH. apply step_loading. exact Hs. }
  apply H. reflexivity.
Qed.

Lemma step_draft (s : State) (ea : Env * Action) (d : Draft) :
  draft (step s ea) = Some d ->
  draft s = Some d \/ exists g, snd ea = ClickDraft g /\ d_grant d = g.
Proof.
  destruct ea as [env a]. unfold step, run. simpl.
  destruct a; simpl; try (intros H; left; exact H).
  - rewrite findGrants_run. simpl.
    destruct (api_outcome env "/questionnaire" _) as [[| q] | e1]; simpl;
      try discriminate.
    destruct (api_outcome env "/find-grants" _) as [[| r] | e2]; discriminate.
  - rewrite createDraft_run. simpl.
    destruct (api_outcome env "/draft" _) as [[| r] | e1]; simpl;
      try (intros H; left; exact H).
    intros [= <-]. right. exists g. split; reflexivity.
  - unfold confirmPay. setters. munfold.
    destruct (payFor s) as [p |]; simpl; [| intros H; left; exact H].
    destruct (truthy_str (pf_id p)); simpl; intros H; left; exact H.
Qed.

(** X25: the active draft is never decoupled from a grant the user asked a
    draft for: from the first page, whatever happens, the grant an active
    draft carries is the argument of one of the "Draft" clicks of the
    session. *)
Theorem X25_draft_grant_was_asked_for (l : list (Env * Action)) (d : Draft) :
  draft (session initial l) = Some d ->
  exists env, (env, ClickDraft (d_grant d)) ∈ l.
Proof.
  unfold session.
  assert (H : forall s, draft (fold_left step l s) = Some d ->
                        draft s = Some d \/ exists env, (env, ClickDraft (d_grant d)) ∈ l).
  { induction l as [| ea l IH]; intros s Hd; simpl in *; [left; exact Hd |].
    destruct (IH _ Hd) as [Hs | [env Hin]].
    - apply step_draft in Hs as [Hs | [g [Ha Hg]]]; [left; exact Hs |].
      right. exists (fst ea). rewrite Hg. destruct ea as [env a]. simpl in *. subst a.
      apply elem_of_cons. left. reflexivity.
    - right. exists env. apply elem_of_cons. right. exact Hin. }
  intros Hd. destruct (H initial Hd) as [Hinit | Hex]; [discriminate Hinit | exact Hex].
Qed.

(** X25, witness: a search, a draft for "Arts Grant", then a failed draft
    request for "STEM Fund" leave the draft of "Arts Grant" in place. *)
Lemma X25_draft_grant_was_asked_for_witness :
  exists env,
    (env, ClickDraft Sample.arts) ∈
      [(Sample.backend_ok, ClickFindGrants);
       (Sample.backend_ok, ClickDraft Sample.arts);
       (Sample.backend_500, ClickDraft Sample.stem_fund)].
Proof.
  apply (X25_draft_grant_was_asked_for
           [(Sample.backend_ok, ClickFindGrants);
            (Sample.backend_ok, ClickDraft Sample.arts);
            (Sample.backend_500, ClickDraft Sample.stem_fund)]
           (mkDraft (Some "d-0123456789") "" Sample.arts)).
  vm_compute. reflexivity.
Defined.

(** X26: a draft request, answered or not, touches neither the form, nor
    the intake reference, nor the grant list, nor the modal, nor the paid
    markers, and it sends exactly one request. *)
Theorem X26_draft_frame (s : State) (g : Grant) (env : Env) (w : World State) :
  org (app (snd (createDraft s g env w))) = org (app w) /\
  keywords (app (snd (createDraft s g env w))) = keywords (app w) /\
  intakeId (app (snd (createDraft s g env w))) = intakeId (app w) /\
  grants (app (snd (createDraft s g env w))) = grants (app w) /\
  payFor (app (snd (createDraft s g env w))) = payFor (app w) /\
  paidDraftIds (app (snd (createDraft s g env w))) = paidDraftIds (app w) /\
  length (calls (snd (createDraft s g env w))) = S (length (calls w)).
Proof.
  rewrite createDraft_run. simpl.
  destruct (api_outcome env "/draft" _) as [[| d] | e1]; simpl;
    rewrite length_app; simpl; repeat split; lia.
Qed.

(** X2, witness: in "a", two blanks, "b" the run of blanks becomes the one
    underscore of "a_b", which is no white space. *)
Lemma X2_replace_ws_no_space_witness :
  replace_ws "a  b" = "a_b" /\ is_space "_"%char = false.
Proof.
  split; [reflexivity |].
  apply (proj1 (X2_replace_ws_no_space "a  b")).
  change (chars (replace_ws "a  b")) with ["a"; "_"; "b"]%char.
  apply elem_of_cons. right. apply elem_of_cons. left. reflexivity.
Defined.

(** X4, witness: a title of 63 characters and an id of 12. *)
Lemma X4_export_filename_shape_witness :
  (String.length
     (export_filename "Community  Development Block Grant for Rural Veterans Education"
                      (Some "d-0123456789")) <= 59)%nat.
Proof.
  destruct (X4_export_filename_shape
              "Community  Development Block Grant for Rural Veterans Education"
              (Some "d-0123456789")) as (tpart & ipart & _ & _ & _ & _ & Hlen).
  exact Hlen.
Defined.
